(** * ALDR bot: the spreadsheet monitor and its tier classifier

    A shallow embedding of [monitor.py] and of [send_manual.py] (its
    classifier and its [main]).  Python [str] values are Rocq strings whose
    characters are read as the code points 0..255; a [dict] is a [gmap],
    a [set] a [gset], a [float] a binary64 [spec_float]. *)

From Stdlib Require Import ZArith String Ascii.
From Stdlib Require Import Floats.SpecFloat.
From stdpp Require Import gmap strings list sorting fin_maps.

Local Open Scope string_scope.

(** ** The string methods the program calls *)

Module PyStr.

(** [str.isspace] on the code points below 256. *)
Definition is_space (c : ascii) : bool :=
  let n := N_of_ascii c in
  ((9 <=? n) && (n <=? 13) || (28 <=? n) && (n <=? 32)
   || (n =? 133) || (n =? 160))%N.

Fixpoint lstrip (s : string) : string :=
  match s with
  | String c s' => if is_space c then lstrip s' else s
  | EmptyString => EmptyString
  end.

Definition rstrip (s : string) : string :=
  String.rev (lstrip (String.rev s)).

(** [s.strip()] *)
Definition strip (s : string) : string := rstrip (lstrip s).

(** [str.lower] on one code point below 256: A-Z, and the capital
    letters of the Latin-1 supplement (192..222 without 215). *)
Definition lower_char (c : ascii) : ascii :=
  let n := N_of_ascii c in
  if ((65 <=? n) && (n <=? 90)
      || (192 <=? n) && (n <=? 222) && negb (n =? 215))%N
  then ascii_of_N (n + 32) else c.

(** [s.lower()] *)
Fixpoint lower (s : string) : string :=
  match s with
  | String c s' => String (lower_char c) (lower s')
  | EmptyString => EmptyString
  end.

(** [s.split(sep)] for a separator of one character. *)
Fixpoint split (sep : ascii) (s : string) : list string :=
  match s with
  | EmptyString => [EmptyString]
  | String c s' =>
      if Ascii.eqb c sep then EmptyString :: split sep s'
      else match split sep s' with
           | w :: ws => String c w :: ws
           | [] => [String c EmptyString]
           end
  end.

(** Truth value of a string: [if s:]. *)
Definition truthy (s : string) : bool :=
  match s with EmptyString => false | _ => true end.

End PyStr.

(** ** [float(s)]: from a decimal numeral to the nearest binary64 *)

Module PyFloat.

Definition prec : Z := 53.
Definition emax : Z := 1024.

Definition digit_of (c : ascii) : option Z :=
  let n := N_of_ascii c in
  if ((48 <=? n) && (n <=? 57))%N then Some (Z.of_N n - 48)%Z else None.

Definition is_digit (c : ascii) : bool :=
  match digit_of c with Some _ => true | None => false end.

(** Underscores may only stand between two digits; they are dropped
    before the numeral is read. *)
Fixpoint drop_underscores (prev : option ascii) (s : string)
  : option string :=
  match s with
  | EmptyString =>
      if bool_decide (prev = Some "_"%char) then None else Some EmptyString
  | String c s' =>
      if Ascii.eqb c "_" then
        if from_option is_digit false prev
        then drop_underscores (Some c) s' else None
      else
        if bool_decide (prev = Some "_"%char) && negb (is_digit c)
        then None
        else String c <$> drop_underscores (Some c) s'
  end.

(** The longest prefix of digits: its value, its length and the rest. *)
Fixpoint digits (acc : Z) (len : Z) (s : string) : Z * Z * string :=
  match s with
  | String c s' =>
      match digit_of c with
      | Some d => digits (10 * acc + d) (len + 1) s'
      | None => (acc, len, s)
      end
  | EmptyString => (acc, len, s)
  end.

Definition sign (s : string) : bool * string :=
  match s with
  | String "-" s' => (true, s')
  | String "+" s' => (false, s')
  | _ => (false, s)
  end.

(** The exponent part: nothing, or [e], an optional sign and digits. *)
Definition exponent (s : string) : option Z :=
  match s with
  | EmptyString => Some 0%Z
  | String c s' =>
      if Ascii.eqb c "e" || Ascii.eqb c "E" then
        let '(neg, s'') := sign s' in
        match digits 0 0 s'' with
        | (v, len, EmptyString) =>
            if (0 <? len)%Z then Some (if neg then (- v)%Z else v) else None
        | _ => None
        end
      else None
  end.

(** The binary64 nearest to [(-1)^neg * m * 10^e], ties to even. *)
Definition of_decimal (neg : bool) (m e : Z) : spec_float :=
  match m with
  | Zpos p =>
      if (0 <=? e)%Z
      then binary_round prec emax neg (Z.to_pos (m * 10 ^ e)) 0
      else SFdiv prec emax (S754_finite neg p 0)
             (S754_finite false (Z.to_pos (10 ^ (- e))) 0)
  | _ => S754_zero neg
  end.

(** [digits [. digits] [exponent]] or [. digits [exponent]] *)
Definition number (neg : bool) (s : string) : option spec_float :=
  let '(ip, ilen, r) := digits 0 0 s in
  let '(m, flen, r') :=
    match r with
    | String "." r1 => digits ip 0 r1
    | _ => (ip, 0%Z, r)
    end in
  if (0 <? ilen + flen)%Z then
    e ← exponent r'; Some (of_decimal neg m (e - flen))
  else None.

(** [float(s)]; [None] stands for [ValueError]. *)
Definition float (s : string) : option spec_float :=
  t ← drop_underscores None (PyStr.strip s);
  let '(neg, body) := sign t in
  let name := PyStr.lower body in
  if bool_decide (name = "inf") || bool_decide (name = "infinity")
  then Some (S754_infinity neg)
  else if bool_decide (name = "nan") then Some S754_nan
  else number neg body.

(** A float literal of the source text. *)
Definition lit (s : string) : spec_float := default S754_nan (float s).

Definition lt (x y : spec_float) : bool := SFltb x y.
Definition le (x y : spec_float) : bool := SFleb x y.

End PyFloat.

(** ** [int(s)] in base ten *)

Module PyInt.

(** The whitespace [int] drops at the two ends of its text: the C
    whitespace 9..13 and 32 and, of the code points from 127 on, the
    whitespace 133 and 160.  The separators 28..31, which [str.strip]
    drops, are not among them. *)
Definition is_space (c : ascii) : bool :=
  let n := N_of_ascii c in
  ((9 <=? n) && (n <=? 13) || (n =? 32) || (n =? 133) || (n =? 160))%N.

Fixpoint lstrip (s : string) : string :=
  match s with
  | String c s' => if is_space c then lstrip s' else s
  | EmptyString => EmptyString
  end.

Definition strip (s : string) : string :=
  String.rev (lstrip (String.rev (lstrip s))).

(** [sys.int_max_str_digits], at its default. *)
Definition int_max_str_digits : Z := 4300.

(** [int(s)]: whitespace dropped at the ends, an optional sign, digits
    with single underscores between them, no more than
    [int_max_str_digits] digits; [None] stands for [ValueError]. *)
Definition int (s : string) : option Z :=
  t ← PyFloat.drop_underscores None (strip s);
  let '(neg, body) := PyFloat.sign t in
  match PyFloat.digits 0 0 body with
  | (v, len, EmptyString) =>
      if (0 <? len)%Z && (len <=? int_max_str_digits)%Z
      then Some (if neg then (- v)%Z else v)
      else None
  | _ => None
  end.

End PyInt.

(** ** The tier classifier of [monitor.py] *)

Module Monitor.

Definition DIFFICULTY_EMOJI_MAP : gmap string string :=
  list_to_map
    [ ("easy", "<:easy:1464320027963424912>");
      ("medium", "<:medium:1464320095034802289>");
      ("hard", "<:hard:1464320167571095766>");
      ("harder", "<:harder:1464320225075007632>");
      ("insane", "<:insane:1464320293622386812>");
      ("expert", "<:expert:1464320350237102337>");
      ("extreme", "<:extreme:1464320430658551838>");
      ("madness", "<:madness:1464320499600462119>");
      ("master", "<:master:1464320549600755937>");
      ("grandmaster", "<:grandmaster:1464320611038924874>");
      ("gm1", "<:gm1:1464320687953940543>");
      ("gm2", "<:gm2:1464320747613978748>");
      ("tas", "<:tas:1464320806162268222>");
      ("tas1", "<:tas1:1464320856275550414>");
      ("tas2", "<:tas2:1464320904061518007>") ].

Definition f1_5 : spec_float := Eval vm_compute in PyFloat.lit "1.5".
Definition f2_5 : spec_float := Eval vm_compute in PyFloat.lit "2.5".
Definition f3_5 : spec_float := Eval vm_compute in PyFloat.lit "3.5".
Definition f4_5 : spec_float := Eval vm_compute in PyFloat.lit "4.5".
Definition f5_5 : spec_float := Eval vm_compute in PyFloat.lit "5.5".
Definition f6_5 : spec_float := Eval vm_compute in PyFloat.lit "6.5".
Definition f7_5 : spec_float := Eval vm_compute in PyFloat.lit "7.5".
Definition f8_5 : spec_float := Eval vm_compute in PyFloat.lit "8.5".
Definition f9_5 : spec_float := Eval vm_compute in PyFloat.lit "9.5".

(** The [if]/[elif] chain on the parsed value. *)
Definition numeric_emoji (difficulty : spec_float) : string :=
  if PyFloat.lt difficulty f1_5 then "<:easy:1464320027963424912>"
  else if PyFloat.lt difficulty f2_5 then "<:medium:1464320095034802289>"
  else if PyFloat.lt difficulty f3_5 then "<:hard:1464320167571095766>"
  else if PyFloat.lt difficulty f4_5 then "<:harder:1464320225075007632>"
  else if PyFloat.lt difficulty f5_5 then "<:insane:1464320293622386812>"
  else if PyFloat.lt difficulty f6_5 then "<:expert:1464320350237102337>"
  else if PyFloat.lt difficulty f7_5 then "<:extreme:1464320430658551838>"
  else if PyFloat.lt difficulty f8_5 then "<:madness:1464320499600462119>"
  else if PyFloat.lt difficulty f9_5 then "<:master:1464320549600755937>"
  else "<:grandmaster:1464320611038924874>".

Definition get_difficulty_emoji (difficulty_str : string) : string :=
  let difficulty_str := PyStr.lower (PyStr.strip difficulty_str) in
  match DIFFICULTY_EMOJI_MAP !! difficulty_str with
  | Some emoji => emoji
  | None =>
      match PyFloat.float difficulty_str with
      | Some difficulty => numeric_emoji difficulty
      | None => difficulty_str
      end
  end.

(** *** The sheet and the check cycle *)

Definition COLUMN_MAP : gmap string nat :=
  list_to_map
    [ ("ALDR_ID", 0); ("LEVEL_NAME", 1); ("CREATOR", 2);
      ("DIFFICULTY", 3); ("SKILLS_BALANCE", 4); ("LIST_POINTS", 5);
      ("PROJECT", 6); ("VIDEO", 7); ("NOTES", 8); ("LEVEL_CODE", 9);
      ("VICTORS", 10); ("IMPOSSIBLE", 11); ("CHALLENGE", 12);
      ("TRACKER_USERNAME", 22); ("DISCORD_ID", 24) ].

(** [while len(row) < len(COLUMN_MAP): row.append('')] *)
Definition pad (row : list string) : list string :=
  (row ++ replicate (size COLUMN_MAP - length row) "")%list.

(** [row[COLUMN_MAP[name]].strip() if COLUMN_MAP[name] < len(row) else ''] *)
Definition cell (row : list string) (name : string) : string :=
  match row !! default 0 (COLUMN_MAP !! name) with
  | Some field => PyStr.strip field
  | None => ""
  end.

(** [set(v.strip() for v in victors_str.split(',') if v.strip())] *)
Definition parse_victors (victors_str : string) : gset string :=
  list_to_set
    (PyStr.strip <$>
       filter (λ v, PyStr.truthy (PyStr.strip v))
              (PyStr.split "," victors_str)).

(** [sorted(new_victors)] *)
Definition sorted (s : gset string) : list string :=
  merge_sort String.le (elements s).

(** The globals [previous_victors] and [first_check_done]. *)
Record state := State {
  previous_victors : gmap string (gset string);
  first_check_done : bool
}.

Definition initial_state : state := State ∅ false.

(** A value of [current_victors_dict]. *)
Record level_entry := LevelEntry {
  victors : gset string;
  level_name : string;
  creators : string;
  difficulty : string
}.

(** One call of [send_discord_message], with its arguments. *)
Record notification := Notification {
  sent_victor_name : string;
  sent_level_name : string;
  sent_creators : string;
  sent_difficulty : string;
  sent_username_to_id_map : gmap string string
}.

(** [send_discord_message]: the text it posts to the webhook.  Whether
    the request succeeds changes nothing in the program. *)
Definition send_discord_message
    (victor_name level_name creators difficulty : string)
    (username_to_id_map : gmap string string) : string :=
  let difficulty_emoji := get_difficulty_emoji difficulty in
  let victor_display :=
    match username_to_id_map !! victor_name with
    | Some discord_id => "<@" ++ discord_id ++ "> (" ++ victor_name ++ ")"
    | None => victor_name
    end in
  "**" ++ victor_display ++ "** has beaten **" ++ level_name
    ++ "** by " ++ creators ++ " - Difficulty: "
    ++ difficulty ++ " [" ++ difficulty_emoji ++ "]".

(** The text posted by a recorded call. *)
Definition message (n : notification) : string :=
  send_discord_message (sent_victor_name n) (sent_level_name n)
    (sent_creators n) (sent_difficulty n) (sent_username_to_id_map n).

(** What [fetch_sheet_data] meets: an exception anywhere in the request
    or the TSV reader, or the rows read. *)
Inductive fetched :=
| Raised
| Rows (data : list (list string)).

Definition fetch_sheet_data (f : fetched) : option (list (list string)) :=
  match f with
  | Raised => None
  | Rows data => Some data
  end.

(** Body of the first loop: the username to Discord id mapping. *)
Definition username_step (username_to_id_map : gmap string string)
    (row : list string) : gmap string string :=
  let row := pad row in
  let username := cell row "TRACKER_USERNAME" in
  let discord_id := cell row "DISCORD_ID" in
  if PyStr.truthy username && PyStr.truthy discord_id
  then <[username := discord_id]> username_to_id_map
  else username_to_id_map.

(** The entry the second loop stores for a row. *)
Definition entry_of (row : list string) : level_entry :=
  LevelEntry (parse_victors (cell (pad row) "VICTORS"))
             (cell (pad row) "LEVEL_NAME")
             (cell (pad row) "CREATOR")
             (cell (pad row) "DIFFICULTY").

(** The calls of [send_discord_message] made while the second loop is
    at one row that has a level id. *)
Definition row_notifications (st : state)
    (username_to_id_map : gmap string string) (row : list string)
  : list notification :=
  let level_id := cell (pad row) "ALDR_ID" in
  let e := entry_of row in
  let previous_victors_set :=
    default ∅ (previous_victors st !! level_id) in
  let new_victors := victors e ∖ previous_victors_set in
  if negb (bool_decide (new_victors = ∅)) && first_check_done st
  then (λ victor, Notification victor (level_name e) (creators e)
                    (difficulty e) username_to_id_map)
         <$> sorted new_victors
  else [].

(** Body of the second loop, on [current_victors_dict] and the calls
    made so far. *)
Definition scan_step (st : state)
    (username_to_id_map : gmap string string)
    (acc : gmap string level_entry * list notification)
    (row : list string) : gmap string level_entry * list notification :=
  let level_id := cell (pad row) "ALDR_ID" in
  if negb (PyStr.truthy level_id) then acc
  else (<[level_id := entry_of row]> acc.1,
        (acc.2 ++ row_notifications st username_to_id_map row)%list).

(** The last loop: [previous_victors[level_id] = data_dict['victors']]. *)
Definition replace_previous (current_victors_dict : gmap string level_entry)
    (previous : gmap string (gset string)) : gmap string (gset string) :=
  map_fold (λ level_id data_dict acc, <[level_id := victors data_dict]> acc)
           previous current_victors_dict.

(** [check_for_changes], from the value [fetch_sheet_data] returned and
    the globals, to the globals afterwards and the calls made. *)
Definition check_for_changes (data : option (list (list string)))
    (st : state) : state * list notification :=
  match data with
  | None => (st, [])
  | Some data =>
      if bool_decide (data = []) || bool_decide (length data < 2)
      then (st, [])
      else
        let username_to_id_map := foldl username_step ∅ (drop 1 data) in
        let '(current_victors_dict, sent) :=
          foldl (scan_step st username_to_id_map) (∅, []) (drop 1 data) in
        (State (replace_previous current_victors_dict (previous_victors st))
               true,
         sent)
  end.

(** The level id the second loop reads from a row, and whether the row
    is kept ([if not level_id: continue]). *)
Definition level_id_of (row : list string) : string :=
  cell (pad row) "ALDR_ID".

Definition has_level_id (row : list string) : bool :=
  PyStr.truthy (level_id_of row).

(** What the second loop adds to the calls at one row. *)
Definition row_sent (st : state) (username_to_id_map : gmap string string)
    (row : list string) : list notification :=
  if has_level_id row then row_notifications st username_to_id_map row
  else [].

(** The mapping the first loop builds from the rows read. *)
Definition username_map_of (data : list (list string))
  : gmap string string :=
  foldl username_step ∅ (drop 1 data).

(** One scheduled cycle. *)
Definition check_cycle (f : fetched) (st : state)
  : state * list notification :=
  check_for_changes (fetch_sheet_data f) st.

(** The globals after the scheduled cycles of a run, one after the
    other, given what each fetch met. *)
Definition after_cycles (polls : list fetched) (st : state) : state :=
  foldl (λ st f, (check_cycle f st).1) st polls.

End Monitor.

(** ** The tier classifier of [send_manual.py] *)

Module SendManual.

Definition DIFFICULTY_EMOJI_MAP : gmap string string :=
  list_to_map
    [ ("effortless", "<:effortless:1470940267782869188>");
      ("easy", "<:easy:1464320027963424912>");
      ("medium", "<:medium:1464320095034802289>");
      ("hard", "<:hard:1464320167571095766>");
      ("harder", "<:harder:1464320225075007632>");
      ("insane", "<:insane:1464320293622386812>");
      ("expert", "<:expert:1464320350237102337>");
      ("extreme", "<:extreme:1464320430658551838>");
      ("madness", "<:madness:1464320499600462119>");
      ("master", "<:master:1464320549600755937>");
      ("grandmaster", "<:grandmaster:1464320611038924874>");
      ("gm1", "<:gm1:1464320687953940543>");
      ("gm2", "<:gm2:1464320747613978748>");
      ("tas", "<:tas:1464320806162268222>");
      ("tas1", "<:tas1:1464320856275550414>");
      ("tas2", "<:tas2:1464320904061518007>") ].

Definition f1 : spec_float := Eval vm_compute in PyFloat.lit "1.0".
Definition f2 : spec_float := Eval vm_compute in PyFloat.lit "2.0".
Definition f3 : spec_float := Eval vm_compute in PyFloat.lit "3.0".
Definition f4 : spec_float := Eval vm_compute in PyFloat.lit "4.0".
Definition f5 : spec_float := Eval vm_compute in PyFloat.lit "5.0".
Definition f6 : spec_float := Eval vm_compute in PyFloat.lit "6.0".
Definition f7 : spec_float := Eval vm_compute in PyFloat.lit "7.0".
Definition f8 : spec_float := Eval vm_compute in PyFloat.lit "8.0".
Definition f9 : spec_float := Eval vm_compute in PyFloat.lit "9.0".
Definition f10 : spec_float := Eval vm_compute in PyFloat.lit "10.0".
Definition f11 : spec_float := Eval vm_compute in PyFloat.lit "11.0".
Definition f12 : spec_float := Eval vm_compute in PyFloat.lit "12.0".
Definition f13 : spec_float := Eval vm_compute in PyFloat.lit "13.0".
Definition f14 : spec_float := Eval vm_compute in PyFloat.lit "14.0".
Definition f15 : spec_float := Eval vm_compute in PyFloat.lit "15.0".

Definition numeric_emoji (difficulty : spec_float) : string :=
  if PyFloat.lt difficulty f1 then "<:effortless:1470940267782869188>"
  else if PyFloat.lt difficulty f2 then "<:easy:1464320027963424912>"
  else if PyFloat.lt difficulty f3 then "<:medium:1464320095034802289>"
  else if PyFloat.lt difficulty f4 then "<:hard:1464320167571095766>"
  else if PyFloat.lt difficulty f5 then "<:harder:1464320225075007632>"
  else if PyFloat.lt difficulty f6 then "<:insane:1464320293622386812>"
  else if PyFloat.lt difficulty f7 then "<:expert:1464320350237102337>"
  else if PyFloat.lt difficulty f8 then "<:extreme:1464320430658551838>"
  else if PyFloat.lt difficulty f9 then "<:madness:1464320499600462119>"
  else if PyFloat.lt difficulty f10 then "<:master:1464320549600755937>"
  else if PyFloat.lt difficulty f11
       then "<:grandmaster:1464320611038924874>"
  else if PyFloat.lt difficulty f12 then "<:gm1:1464320687953940543>"
  else if PyFloat.lt difficulty f13 then "<:gm2:1464320747613978748>"
  else if PyFloat.lt difficulty f14 then "<:tas:1464320806162268222>"
  else if PyFloat.lt difficulty f15 then "<:tas1:1464320856275550414>"
  else "<:tas2:1464320904061518007>".

Definition get_difficulty_emoji (difficulty_str : string) : string :=
  let difficulty_str := PyStr.lower (PyStr.strip difficulty_str) in
  match DIFFICULTY_EMOJI_MAP !! difficulty_str with
  | Some emoji => emoji
  | None =>
      match PyFloat.float difficulty_str with
      | Some difficulty => numeric_emoji difficulty
      | None => difficulty_str
      end
  end.

(** *** The manual sender *)

(** [COLUMN_MAP], the padding of a row, the reading of a cell,
    [fetch_sheet_data] and the loop that builds [username_to_id_map] have
    the same text in [send_manual.py] as in [monitor.py]; the definitions
    of [Monitor] stand for both. *)

(** What [requests.post] meets: an exception, or a response with its
    status code. *)
Inductive posted :=
| PostRaised
| Status (code : Z).

(** The text [send_discord_message] builds. *)
Definition message_text
    (victor_name level_name creators difficulty : string)
    (username_to_id_map : gmap string string) : string :=
  let difficulty_emoji := get_difficulty_emoji difficulty in
  let victor_display :=
    match username_to_id_map !! victor_name with
    | Some discord_id => "<@" ++ discord_id ++ "> (" ++ victor_name ++ ")"
    | None => victor_name
    end in
  "**" ++ victor_display ++ "** has beaten **" ++ level_name
    ++ "** by " ++ creators ++ " - Difficulty: "
    ++ difficulty ++ " [" ++ difficulty_emoji ++ "]".

(** [send_discord_message]: the text posted and the value returned. *)
Definition send_discord_message
    (victor_name level_name creators difficulty : string)
    (username_to_id_map : gmap string string) (response : posted)
  : string * bool :=
  (message_text victor_name level_name creators difficulty
     username_to_id_map,
   match response with
   | Status code => bool_decide (code = 200%Z ∨ code = 204%Z)
   | PostRaised => false
   end).

(** [[v.strip() for v in victors_str.split(',') if v.strip()]] *)
Definition victors_list (victors_str : string) : list string :=
  PyStr.strip <$>
    filter (λ v, PyStr.truthy (PyStr.strip v)) (PyStr.split "," victors_str).

(** How a run of [main] ends: at one of its early returns, or after the
    call of [send_discord_message], with the text posted and the value
    the call returned. *)
Inductive outcome :=
| NoData
| InvalidArgument
| Cancelled
| InvalidRowNumber
| NoLevelId
| NoVictors
| NoVictorFound
| Sent (victor_name : string) (text : string) (ok : bool).

(** The row number: from [sys.argv[1]] when there is one, else from the
    line typed at the prompt ([None] when the prompt was interrupted). *)
Definition row_number (argv : list string) (typed : option string)
  : outcome + Z :=
  if bool_decide (1 < length argv) then
    match PyInt.int (default "" (argv !! 1%nat)) with
    | Some row_num => inr row_num
    | None => inl InvalidArgument
    end
  else
    match typed ≫= PyInt.int with
    | Some row_num => inr row_num
    | None => inl Cancelled
    end.

(** [main], from what the fetch met, the command line, the line typed and
    what the post met. *)
Definition main (f : Monitor.fetched) (argv : list string)
    (typed : option string) (response : posted) : outcome :=
  match Monitor.fetch_sheet_data f with
  | None => NoData
  | Some data =>
      if bool_decide (data = []) || bool_decide (length data < 2)
      then NoData
      else
        let username_to_id_map :=
          foldl Monitor.username_step ∅ (drop 1 data) in
        match row_number argv typed with
        | inl stop => stop
        | inr row_num =>
            if (row_num <? 1)%Z
               || (Z.of_nat (length data) - 1 <? row_num)%Z
            then InvalidRowNumber
            else
              let row :=
                Monitor.pad (default [] (data !! Z.to_nat row_num)) in
              let level_id := Monitor.cell row "ALDR_ID" in
              let level_name := Monitor.cell row "LEVEL_NAME" in
              let creators := Monitor.cell row "CREATOR" in
              let difficulty := Monitor.cell row "DIFFICULTY" in
              let victors_str := Monitor.cell row "VICTORS" in
              if negb (PyStr.truthy level_id) then NoLevelId
              else if negb (PyStr.truthy victors_str) then NoVictors
              else
                match last (victors_list victors_str) with
                | None => NoVictorFound
                | Some newest_victor =>
                    let '(text, ok) :=
                      send_discord_message newest_victor level_name
                        creators difficulty username_to_id_map response in
                    Sent newest_victor text ok
                end
        end
  end.

End SendManual.

(** ** Words of the specification, to compare the code with *)

Module Spec.

(** "An ordered list of ascending upper-bound thresholds; the first
    threshold the value is strictly below wins; a value at or above the
    highest threshold maps to the top tier." *)
Fixpoint first_below (bands : list (spec_float * string)) (top : string)
    (value : spec_float) : string :=
  match bands with
  | [] => top
  | (upper_bound, token) :: rest =>
      if PyFloat.lt value upper_bound then token
      else first_below rest top value
  end.

Definition monitor_bands : list (spec_float * string) :=
  [ (Monitor.f1_5, "<:easy:1464320027963424912>");
    (Monitor.f2_5, "<:medium:1464320095034802289>");
    (Monitor.f3_5, "<:hard:1464320167571095766>");
    (Monitor.f4_5, "<:harder:1464320225075007632>");
    (Monitor.f5_5, "<:insane:1464320293622386812>");
    (Monitor.f6_5, "<:expert:1464320350237102337>");
    (Monitor.f7_5, "<:extreme:1464320430658551838>");
    (Monitor.f8_5, "<:madness:1464320499600462119>");
    (Monitor.f9_5, "<:master:1464320549600755937>") ].

Definition monitor_top : string := "<:grandmaster:1464320611038924874>".

(** The token of the tier just above the [i]-th boundary. *)
Definition tier_above (bands : list (spec_float * string)) (top : string)
    (i : nat) : string :=
  default top (snd <$> bands !! S i).

(** The rows of a snapshot that carry the level id [k], in sheet order. *)
Definition rows_of (k : string) (rows : list (list string))
  : list (list string) :=
  filter (λ row, Monitor.has_level_id row ∧ Monitor.level_id_of row = k)
         rows.

(** The level ids of the rows the second loop keeps. *)
Definition level_ids (rows : list (list string)) : list string :=
  Monitor.level_id_of <$> filter (λ row, Monitor.has_level_id row) rows.

End Spec.

(** ** Predicates the invariants are stated with *)

Module Shape.

(** A text as the sheet reader keeps it: not empty, and with no
    whitespace at either end. *)
Definition clean (s : string) : Prop := s ≠ "" ∧ PyStr.strip s = s.

(** Every recorded level id and every recorded victor is clean. *)
Definition state_clean (st : Monitor.state) : Prop :=
  ∀ k V, Monitor.previous_victors st !! k = Some V →
         clean k ∧ ∀ v, v ∈ V → clean v.

(** The rows that give the tracker username [u] a Discord id. *)
Definition username_rows (u : string) (rows : list (list string))
  : list (list string) :=
  filter (λ row,
            PyStr.truthy (Monitor.cell (Monitor.pad row) "TRACKER_USERNAME")
            ∧ PyStr.truthy (Monitor.cell (Monitor.pad row) "DISCORD_ID")
            ∧ Monitor.cell (Monitor.pad row) "TRACKER_USERNAME" = u)
         rows.

(** The upper bounds and tokens of [send_manual.py], in the words of
    [Spec.first_below]. *)
Definition manual_bands : list (spec_float * string) :=
  [ (SendManual.f1, "<:effortless:1470940267782869188>");
    (SendManual.f2, "<:easy:1464320027963424912>");
    (SendManual.f3, "<:medium:1464320095034802289>");
    (SendManual.f4, "<:hard:1464320167571095766>");
    (SendManual.f5, "<:harder:1464320225075007632>");
    (SendManual.f6, "<:insane:1464320293622386812>");
    (SendManual.f7, "<:expert:1464320350237102337>");
    (SendManual.f8, "<:extreme:1464320430658551838>");
    (SendManual.f9, "<:madness:1464320499600462119>");
    (SendManual.f10, "<:master:1464320549600755937>");
    (SendManual.f11, "<:grandmaster:1464320611038924874>");
    (SendManual.f12, "<:gm1:1464320687953940543>");
    (SendManual.f13, "<:gm2:1464320747613978748>");
    (SendManual.f14, "<:tas:1464320806162268222>");
    (SendManual.f15, "<:tas1:1464320856275550414>") ].

Definition manual_top : string := "<:tas2:1464320904061518007>".

(** The place of a value among ascending upper bounds: the number of
    bounds passed before the first one the value is strictly below. *)
Fixpoint tier_index (bands : list (spec_float * string))
    (value : spec_float) : nat :=
  match bands with
  | [] => 0
  | (upper_bound, _) :: rest =>
      if PyFloat.lt value upper_bound then 0
      else S (tier_index rest value)
  end.

(** The token at the place of a value. *)
Definition tier_at (bands : list (spec_float * string)) (top : string)
    (value : spec_float) : string :=
  default top (snd <$> bands !! tier_index bands value).

(** A finite binary64 above zero. *)
Definition finite_positive (x : spec_float) : Prop :=
  match x with
  | S754_finite false _ _ => True
  | _ => False
  end.

End Shape.

Import Monitor.

(** ** The loops of [check_for_changes] *)

Section Loops.

Variable st : state.
Variable username_to_id_map : gmap string string.

Lemma scan_sent rows acc :
  (foldl (scan_step st username_to_id_map) acc rows).2
  = (acc.2 ++ concat (row_sent st username_to_id_map <$> rows))%list.
Proof.
  revert acc. induction rows as [|row rows IH]; intros acc; simpl.
  - by rewrite app_nil_r.
  - rewrite IH. unfold scan_step, row_sent, has_level_id, level_id_of.
    destruct (PyStr.truthy (cell (pad row) "ALDR_ID")); simpl.
    + by rewrite <- app_assoc.
    + done.
Qed.

Lemma scan_dict rows acc k :
  (foldl (scan_step st username_to_id_map) acc rows).1 !! k
  = match last (Spec.rows_of k rows) with
    | Some row => Some (entry_of row)
    | None => acc.1 !! k
    end.
Proof.
  revert acc. induction rows as [|row rows IH]; intros acc; [done|].
  simpl. rewrite IH. unfold Spec.rows_of. rewrite filter_cons.
  unfold scan_step. fold (level_id_of row). fold (has_level_id row).
  case_decide as Hrow.
  - destruct Hrow as [Hid <-]. apply Is_true_true in Hid. rewrite Hid.
    simpl. rewrite last_cons.
    destruct (last _); [done|]. by rewrite lookup_insert_eq.
  - destruct (has_level_id row) eqn:Hid; simpl; [|done].
    destruct (last _); [done|]. rewrite lookup_insert_ne; [done|].
    intros Hk. apply Hrow. split; [by apply Is_true_true|done].
Qed.

End Loops.

Lemma replace_previous_lookup current previous k :
  replace_previous current previous !! k
  = match current !! k with
    | Some e => Some (victors e)
    | None => previous !! k
    end.
Proof.
  unfold replace_previous. revert k.
  apply (map_fold_weak_ind
           (λ r m, ∀ k, r !! k = match m !! k with
                                 | Some e => Some (victors e)
                                 | None => previous !! k
                                 end)).
  - intros k. by rewrite lookup_empty.
  - intros i x m r Hi IH k. destruct (decide (i = k)) as [->|Hne].
    + by rewrite !lookup_insert_eq.
    + rewrite !lookup_insert_ne by done. apply IH.
Qed.

(** ** The whole cycle in terms of its rows *)

Lemma short_data_stops data st :
  (length data < 2)%nat → check_for_changes (Some data) st = (st, []).
Proof.
  intros Hlen. unfold check_for_changes.
  rewrite (bool_decide_eq_true_2 (length data < 2)%nat) by done.
  by rewrite orb_true_r.
Qed.

Lemma long_data_runs data st :
  (2 ≤ length data)%nat →
  check_for_changes (Some data) st
  = (State (replace_previous
              (foldl (scan_step st (username_map_of data)) (∅, [])
                     (drop 1 data)).1
              (previous_victors st)) true,
     (foldl (scan_step st (username_map_of data)) (∅, []) (drop 1 data)).2).
Proof.
  intros Hlen. unfold check_for_changes, username_map_of.
  rewrite bool_decide_eq_false_2 by (intros ->; simpl in Hlen; lia).
  rewrite bool_decide_eq_false_2 by lia. simpl.
  by destruct (foldl _ _ _).
Qed.

Lemma cycle_sent data st :
  (check_for_changes (Some data) st).2
  = concat (row_sent st (username_map_of data) <$> drop 1 data).
Proof.
  destruct (decide (length data < 2)%nat) as [Hlen|Hlen].
  - rewrite short_data_stops by done.
    destruct data as [|h [|r rows]]; simpl in *; [done..|lia].
  - rewrite long_data_runs by lia. simpl. by rewrite scan_sent.
Qed.

Lemma cycle_previous data st k :
  previous_victors (check_for_changes (Some data) st).1 !! k
  = match last (Spec.rows_of k (drop 1 data)) with
    | Some row => Some (victors (entry_of row))
    | None => previous_victors st !! k
    end.
Proof.
  destruct (decide (length data < 2)%nat) as [Hlen|Hlen].
  - rewrite short_data_stops by done.
    destruct data as [|h [|r rows]]; simpl in *; [done..|lia].
  - rewrite long_data_runs by lia. simpl.
    rewrite replace_previous_lookup, scan_dict. simpl.
    destruct (last _); [done|]. by rewrite lookup_empty.
Qed.

Lemma cycle_flag data st :
  (2 ≤ length data)%nat → first_check_done (check_for_changes (Some data) st).1 = true.
Proof. intros Hlen. by rewrite long_data_runs. Qed.

(** ** [sorted] on a set of names *)

Lemma sorted_Sorted s : Sorted String.le (sorted s).
Proof. unfold sorted. apply (Sorted_merge_sort String.le). Qed.

Lemma sorted_elem_of s v : v ∈ sorted s ↔ v ∈ s.
Proof.
  unfold sorted. rewrite (merge_sort_Permutation String.le).
  apply elem_of_elements.
Qed.

Lemma sorted_NoDup s : NoDup (sorted s).
Proof.
  unfold sorted. rewrite (merge_sort_Permutation String.le).
  apply NoDup_elements.
Qed.

Lemma sorted_empty : sorted ∅ = [].
Proof. unfold sorted. by rewrite elements_empty. Qed.

Lemma sorted_singleton v : sorted {[v]} = [v].
Proof. unfold sorted. by rewrite elements_singleton. Qed.

Lemma concat_all_nil {A B} (f : A → list B) (l : list A) :
  (∀ x, x ∈ l → f x = []) → concat (f <$> l) = [].
Proof.
  induction l as [|x l IH]; intros Hall; simpl; [done|].
  rewrite Hall by left. apply IH. intros y Hy. apply Hall. by right.
Qed.

Lemma no_notification_before_baseline st username_to_id_map row :
  first_check_done st = false → row_sent st username_to_id_map row = [].
Proof.
  intros Hflag. unfold row_sent, row_notifications. rewrite Hflag.
  rewrite andb_false_r. by destruct (has_level_id row).
Qed.

(** ** The first poll *)

(** C1, as the code has it: on a state whose baseline flag is false, a
    cycle that read at least two rows (the header and one more) makes no
    call of [send_discord_message], whatever the victors in the rows, and
    leaves the flag true. *)
Theorem first_poll_seeds_baseline st data :
  first_check_done st = false →
  (2 ≤ length data)%nat →
  (check_cycle (Rows data) st).2 = []
  ∧ first_check_done (check_cycle (Rows data) st).1 = true.
Proof.
  intros Hflag Hlen. unfold check_cycle, fetch_sheet_data. split.
  - rewrite cycle_sent. apply concat_all_nil. intros row _.
    by apply no_notification_before_baseline.
  - by apply cycle_flag.
Qed.

Lemma first_poll_seeds_baseline_witness :
  (check_cycle
     (Rows [["ALDR ID"; "Level"];
            ["L1"; "First"; "ann"; "3"; ""; ""; ""; ""; ""; ""; "bob, cy"]])
     initial_state).2 = []
  ∧ first_check_done
      (check_cycle
         (Rows [["ALDR ID"; "Level"];
                ["L1"; "First"; "ann"; "3"; ""; ""; ""; ""; ""; ""; "bob, cy"]])
         initial_state).1 = true.
Proof.
  apply first_poll_seeds_baseline; [reflexivity | simpl; lia].
Defined.

(** C1 as stated fails on a sheet that holds only its header row: the
    rows were read, yet the cycle stops at the length test and the flag
    stays false. *)
Lemma header_only_poll_leaves_baseline_unset :
  let out := check_cycle (Rows [["ALDR ID"; "Level"]]) initial_state in
  ¬ (out.2 = [] ∧ first_check_done out.1 = true).
Proof. simpl. intros [_ Hflag]. discriminate Hflag. Qed.

(** ** What a poll records *)

(** C4: after a cycle on rows that were read, the set recorded for a
    level id is the victor set of the last row of the snapshot that
    carries this id, and a level id that no row of the snapshot carries
    keeps the set it had (none, if it had none). *)
Theorem poll_replaces_recorded_sets st data k :
  previous_victors (check_cycle (Rows data) st).1 !! k
  = match last (Spec.rows_of k (drop 1 data)) with
    | Some row => Some (parse_victors (cell (pad row) "VICTORS"))
    | None => previous_victors st !! k
    end.
Proof. unfold check_cycle, fetch_sheet_data. by rewrite cycle_previous. Qed.

(** ** A failed fetch *)

(** C5: when the request or the reader raised, [fetch_sheet_data] gives
    [None] and the cycle returns at once: the recorded sets and the flag
    are what they were and no call is made. *)
Theorem failed_fetch_changes_nothing st :
  fetch_sheet_data Raised = None
  ∧ check_cycle Raised st = (st, [])
  ∧ check_for_changes None st = (st, []).
Proof. done. Qed.

(** ** Rows, level ids and what a row sends *)

Lemma rows_of_absent k rows :
  k ∉ Spec.level_ids rows → Spec.rows_of k rows = [].
Proof.
  unfold Spec.level_ids, Spec.rows_of. induction rows as [|r rows IH].
  - done.
  - intros Hk. rewrite filter_cons in Hk. rewrite filter_cons.
    destruct (decide (has_level_id r ∧ level_id_of r = k)) as [Hr|Hr].
    + destruct Hr as [Hid <-]. rewrite decide_True in Hk by done.
      exfalso. apply Hk. rewrite fmap_cons. apply elem_of_cons. by left.
    + apply IH. intros Hin. apply Hk.
      destruct (decide (has_level_id r)); [|done].
      rewrite fmap_cons. apply elem_of_cons. by right.
Qed.

Lemma rows_of_unique rows row :
  NoDup (Spec.level_ids rows) → row ∈ rows → has_level_id row = true →
  Spec.rows_of (level_id_of row) rows = [row].
Proof.
  intros Hnd Hin Hid. induction rows as [|r rows IH]; [by inversion Hin|].
  assert (Hlevels : Spec.level_ids (r :: rows)
                    = if has_level_id r
                      then level_id_of r :: Spec.level_ids rows
                      else Spec.level_ids rows).
  { unfold Spec.level_ids. rewrite filter_cons.
    by destruct (has_level_id r). }
  rewrite Hlevels in Hnd.
  assert (Hmem : row ∈ rows → level_id_of row ∈ Spec.level_ids rows).
  { intros Hr. unfold Spec.level_ids. apply list_elem_of_fmap.
    exists row. split; [done|]. apply list_elem_of_filter.
    split; [by apply Is_true_true|done]. }
  unfold Spec.rows_of. rewrite filter_cons. fold (Spec.rows_of (level_id_of row) rows).
  apply elem_of_cons in Hin as [->|Hin].
  - rewrite decide_True by (split; [by apply Is_true_true|done]).
    rewrite Hid in Hnd. apply NoDup_cons in Hnd as [Hfresh _].
    by rewrite rows_of_absent.
  - destruct (has_level_id r) eqn:Hr.
    + apply NoDup_cons in Hnd as [Hfresh Hnd].
      rewrite decide_False; [by apply IH|].
      intros [_ Heq]. apply Hfresh. rewrite Heq. by apply Hmem.
    + rewrite decide_False; [by apply IH|].
      intros [Hr' _]. apply Is_true_true in Hr'. congruence.
Qed.

Lemma row_sent_sorted st username_to_id_map row :
  first_check_done st = true → has_level_id row = true →
  row_sent st username_to_id_map row
  = (λ victor, Notification victor (level_name (entry_of row))
                 (creators (entry_of row)) (difficulty (entry_of row))
                 username_to_id_map)
      <$> sorted (victors (entry_of row)
                  ∖ default ∅ (previous_victors st !! level_id_of row)).
Proof.
  intros Hflag Hid. unfold row_sent, row_notifications. rewrite Hid, Hflag.
  fold (level_id_of row). rewrite andb_true_r. case_bool_decide as Hnew; [|done].
  by rewrite Hnew, sorted_empty.
Qed.

Lemma row_sent_names st username_to_id_map row :
  first_check_done st = true → has_level_id row = true →
  sent_victor_name <$> row_sent st username_to_id_map row
  = sorted (victors (entry_of row)
            ∖ default ∅ (previous_victors st !! level_id_of row)).
Proof.
  intros Hflag Hid. rewrite row_sent_sorted by done.
  rewrite <- list_fmap_compose. apply list_fmap_id.
Qed.

(** ** The same snapshot twice *)

(** C2, as the code has it: when no level id stands in more than one row
    of the snapshot, a cycle on the snapshot followed at once by a cycle
    on the same snapshot makes no call in the second cycle. *)
Theorem same_snapshot_twice_is_silent st data :
  NoDup (Spec.level_ids (drop 1 data)) →
  (check_cycle (Rows data) (check_cycle (Rows data) st).1).2 = [].
Proof.
  intros Hnd. unfold check_cycle, fetch_sheet_data.
  rewrite cycle_sent. apply concat_all_nil. intros row Hrow.
  unfold row_sent. destruct (has_level_id row) eqn:Hid; [|done].
  unfold row_notifications. fold (level_id_of row).
  rewrite cycle_previous, rows_of_unique by done. simpl.
  rewrite difference_diag_L. by rewrite bool_decide_eq_true_2.
Qed.

Lemma same_snapshot_twice_is_silent_witness :
  (check_cycle
     (Rows [["ALDR ID"]; ["L1"; "First"; "ann"; "3"; ""; ""; ""; ""; ""; "";
                          "bob, cy"];
            ["L2"; "Second"; "dee"; "hard"]])
     (check_cycle
        (Rows [["ALDR ID"]; ["L1"; "First"; "ann"; "3"; ""; ""; ""; ""; "";
                             ""; "bob, cy"];
               ["L2"; "Second"; "dee"; "hard"]])
        (State ∅ true)).1).2 = [].
Proof.
  apply same_snapshot_twice_is_silent.
  apply (bool_decide_unpack _). vm_compute. exact I.
Defined.

(** C2 as stated fails when one level id stands in two rows with
    different victors: the first cycle records the last row's set, and the
    second cycle reports the first row's victor again. *)
Lemma duplicate_rows_break_idempotence :
  let data := [["ALDR ID"];
               ["L1"; "First"; "ann"; "3"; ""; ""; ""; ""; ""; ""; "bob"];
               ["L1"; "First"; "ann"; "3"; ""; ""; ""; ""; ""; ""; "cy"]] in
  let st := State ∅ true in
  first_check_done st = true
  ∧ sent_victor_name
      <$> (check_cycle (Rows data) (check_cycle (Rows data) st).1).2
    = ["bob"]
  ∧ (check_cycle (Rows data) (check_cycle (Rows data) st).1).2 ≠ [].
Proof. vm_compute. repeat split; discriminate. Qed.

Lemma row_sent_in_cycle st data row n :
  row ∈ drop 1 data → n ∈ row_sent st (username_map_of data) row →
  n ∈ (check_cycle (Rows data) st).2.
Proof.
  intros Hrow Hn. unfold check_cycle, fetch_sheet_data. rewrite cycle_sent.
  induction (drop 1 data) as [|r rows IH]; [by inversion Hrow|].
  rewrite fmap_cons. simpl. apply elem_of_app.
  apply elem_of_cons in Hrow as [->|Hrow]; [by left|right; by apply IH].
Qed.

Lemma row_sent_NoDup st username_to_id_map row :
  NoDup (row_sent st username_to_id_map row).
Proof.
  unfold row_sent, row_notifications.
  destruct (has_level_id row); [|constructor].
  destruct (_ && _); [|constructor].
  apply NoDup_fmap_2_strong; [|apply sorted_NoDup].
  intros v w _ _ Heq. by injection Heq.
Qed.

(** ** New victors of a row *)

(** C3: with the baseline flag set, the calls made at a row with a level
    id carry exactly the victors of the row that are not in the set
    recorded for its level id, each once, in ascending order of the name
    (code point by code point), with the row's level name, creators and
    difficulty; and the calls of a cycle are those of its rows, in sheet
    order.  So a row whose set grew from [{a}] to [{a, b}] gives the one
    call for [b]. *)
Theorem new_victors_sent_in_order st data username_to_id_map row :
  first_check_done st = true →
  has_level_id row = true →
  let new_victors :=
    parse_victors (cell (pad row) "VICTORS")
    ∖ default ∅ (previous_victors st !! level_id_of row) in
  let call := λ victor,
    Notification victor (cell (pad row) "LEVEL_NAME")
      (cell (pad row) "CREATOR") (cell (pad row) "DIFFICULTY") in
  let names := sent_victor_name <$> row_sent st username_to_id_map row in
  (check_cycle (Rows data) st).2
  = concat (row_sent st (username_map_of data) <$> drop 1 data)
  ∧ row_sent st username_to_id_map row
    = (λ victor, call victor username_to_id_map) <$> names
  ∧ Sorted String.le names
  ∧ NoDup names
  ∧ (∀ victor, victor ∈ names ↔ victor ∈ new_victors)
  ∧ (∀ a b header,
       a ≠ b →
       previous_victors st !! level_id_of row = Some {[a]} →
       parse_victors (cell (pad row) "VICTORS") = {[a; b]} →
       names = [b]
       ∧ (check_cycle (Rows [header; row]) st).2
         = [call b (username_map_of [header; row])]).
Proof.
  intros Hflag Hid new_victors call names.
  assert (Hnames : ∀ um, sent_victor_name <$> row_sent st um row
                         = sorted new_victors).
  { intros um. by rewrite row_sent_names. }
  subst names. rewrite Hnames. split_and!.
  - unfold check_cycle, fetch_sheet_data. apply cycle_sent.
  - by rewrite row_sent_sorted.
  - apply sorted_Sorted.
  - apply sorted_NoDup.
  - intros victor. apply sorted_elem_of.
  - intros a b header Hab Hprev Hcur.
    assert (Hnew : new_victors = {[b]}).
    { subst new_victors. rewrite Hprev, Hcur. simpl. apply set_eq. intros v.
      rewrite elem_of_difference, elem_of_union, !elem_of_singleton.
      split; [by intros [[?| ->] ?]|].
      intros ->. split; [by right|]. by intros ->. }
    rewrite Hnew, sorted_singleton. split; [done|].
    unfold check_cycle, fetch_sheet_data. rewrite cycle_sent. simpl.
    rewrite app_nil_r, row_sent_sorted by done.
    change (victors (entry_of row) ∖ _) with new_victors.
    by rewrite Hnew, sorted_singleton.
Qed.

Lemma new_victors_sent_in_order_witness :
  sent_victor_name
    <$> (check_cycle
           (Rows [["ALDR ID"];
                  ["L1"; "First"; "zed"; "3"; ""; ""; ""; ""; ""; "";
                   "ann, bob"]])
           (State {["L1" := {["ann"]}]} true)).2
  = ["bob"].
Proof.
  pose proof (new_victors_sent_in_order
                (State {["L1" := {["ann"]}]} true) [] ∅
                ["L1"; "First"; "zed"; "3"; ""; ""; ""; ""; ""; "";
                 "ann, bob"]
                eq_refl eq_refl) as (_ & _ & _ & _ & _ & Hgrow).
  destruct (Hgrow "ann" "bob" ["ALDR ID"]) as [_ ->].
  - discriminate.
  - reflexivity.
  - vm_compute. reflexivity.
  - reflexivity.
Defined.

(** ** A victor that leaves and comes back *)

Lemma cycle_keeps_victor_away f st k a :
  (∀ data row, f = Rows data →
     last (Spec.rows_of k (drop 1 data)) = Some row →
     a ∉ parse_victors (cell (pad row) "VICTORS")) →
  first_check_done st = true →
  a ∉ default ∅ (previous_victors st !! k) →
  first_check_done (check_cycle f st).1 = true
  ∧ (a ∉ default ∅ (previous_victors (check_cycle f st).1 !! k)).
Proof.
  intros Haway Hflag Hout. destruct f as [|data]; [done|].
  unfold check_cycle, fetch_sheet_data. split.
  - destruct (decide (length data < 2)%nat).
    + by rewrite short_data_stops.
    + apply cycle_flag. lia.
  - rewrite cycle_previous.
    destruct (last _) as [row|] eqn:Hlast; [|done].
    simpl. by apply (Haway data row).
Qed.

Lemma cycles_keep_victor_away polls st k a :
  Forall (λ f, ∀ data row, f = Rows data →
                 last (Spec.rows_of k (drop 1 data)) = Some row →
                 a ∉ parse_victors (cell (pad row) "VICTORS")) polls →
  first_check_done st = true →
  a ∉ default ∅ (previous_victors st !! k) →
  first_check_done (after_cycles polls st) = true
  ∧ (a ∉ default ∅ (previous_victors (after_cycles polls st) !! k)).
Proof.
  intros Haway. revert st.
  induction Haway as [|f polls Hf _ IH]; intros st Hflag Hout; [done|].
  destruct (cycle_keeps_victor_away f st k a Hf Hflag Hout).
  by apply IH.
Qed.

(** C9: let a cycle record for a level id a set without [a] (the last
    row it reads for this id does not list [a]; so, when [a] was recorded
    before, the cycle removes it).  Let any number of cycles follow in
    which [a] stays away from this level: the fetch fails, or no row
    carries the id, or the last row that carries it does not list [a].
    Then in the next cycle a row of this id that lists [a] makes the
    call for [a] again; and when its set is the recorded one with only
    [a] added, this is the one call the row makes. *)
Theorem returning_victor_sent_again st data1 between data2 row1 row2 a :
  last (Spec.rows_of (level_id_of row2) (drop 1 data1)) = Some row1 →
  a ∉ parse_victors (cell (pad row1) "VICTORS") →
  Forall (λ f, ∀ data row, f = Rows data →
                 last (Spec.rows_of (level_id_of row2) (drop 1 data))
                 = Some row →
                 a ∉ parse_victors (cell (pad row) "VICTORS")) between →
  row2 ∈ drop 1 data2 →
  has_level_id row2 = true →
  a ∈ parse_victors (cell (pad row2) "VICTORS") →
  let st1 := after_cycles between (check_cycle (Rows data1) st).1 in
  let call :=
    Notification a (cell (pad row2) "LEVEL_NAME") (cell (pad row2) "CREATOR")
      (cell (pad row2) "DIFFICULTY") (username_map_of data2) in
  first_check_done st1 = true
  ∧ (a ∉ default ∅ (previous_victors st1 !! level_id_of row2))
  ∧ call ∈ row_sent st1 (username_map_of data2) row2
  ∧ call ∈ (check_cycle (Rows data2) st1).2
  ∧ (parse_victors (cell (pad row2) "VICTORS")
     = default ∅ (previous_victors st1 !! level_id_of row2) ∪ {[a]} →
     row_sent st1 (username_map_of data2) row2 = [call]).
Proof.
  intros Hlast Hgone Haway Hrow2 Hid Hlisted st1 call.
  assert (Hremoved :
    first_check_done (check_cycle (Rows data1) st).1 = true
    ∧ (a ∉ default ∅ (previous_victors (check_cycle (Rows data1) st).1
                       !! level_id_of row2))).
  { unfold check_cycle, fetch_sheet_data. split.
    - apply cycle_flag.
      destruct data1 as [|h [|r rows]]; simpl in *; [done..|lia].
    - by rewrite cycle_previous, Hlast. }
  destruct Hremoved as [Hflag0 Hout0].
  destruct (cycles_keep_victor_away between _ _ a Haway Hflag0 Hout0)
    as [Hflag1 Hout1].
  fold st1 in Hflag1, Hout1.
  assert (Hcall : call ∈ row_sent st1 (username_map_of data2) row2).
  { rewrite row_sent_sorted by done. apply list_elem_of_fmap.
    exists a. split; [done|]. apply sorted_elem_of.
    by apply elem_of_difference. }
  split_and!; [done..| |].
  - by apply (row_sent_in_cycle st1 data2 row2).
  - intros Hsame. rewrite row_sent_sorted by done.
    change (victors (entry_of row2))
      with (parse_victors (cell (pad row2) "VICTORS")).
    rewrite Hsame.
    replace ((_ ∪ {[a]}) ∖ _) with ({[a]} : gset string).
    + by rewrite sorted_singleton.
    + apply set_eq. intros v.
      rewrite elem_of_difference, elem_of_union, !elem_of_singleton.
      split; [intros ->; by split; [right|]|].
      by intros [[?| ->] ?].
Qed.

Lemma returning_victor_sent_again_witness :
  Notification "ann" "First" "zed" "3" ∅
  ∈ snd (check_cycle
           (Rows [["ALDR ID"];
                  ["L1"; "First"; "zed"; "3"; ""; ""; ""; ""; ""; "";
                   "ann,bob"]])
           (after_cycles
              [Rows [["ALDR ID"];
                     ["L1"; "First"; "zed"; "3"; ""; ""; ""; ""; ""; "";
                      "bob"]];
               Rows [["ALDR ID"]; ["L2"; "Second"; "cy"; "hard"]];
               Raised]
              (fst (check_cycle
                      (Rows [["ALDR ID"];
                             ["L1"; "First"; "zed"; "3"; ""; ""; ""; ""; "";
                              ""; "bob"]])
                      (State {["L1" := {["ann"; "bob"]}]} true))))).
Proof.
  refine (proj1 (proj2 (proj2 (proj2 (returning_victor_sent_again
    (State {["L1" := {["ann"; "bob"]}]} true)
    [["ALDR ID"];
     ["L1"; "First"; "zed"; "3"; ""; ""; ""; ""; ""; ""; "bob"]]
    [Rows [["ALDR ID"];
           ["L1"; "First"; "zed"; "3"; ""; ""; ""; ""; ""; ""; "bob"]];
     Rows [["ALDR ID"]; ["L2"; "Second"; "cy"; "hard"]];
     Raised]
    [["ALDR ID"];
     ["L1"; "First"; "zed"; "3"; ""; ""; ""; ""; ""; ""; "ann,bob"]]
    ["L1"; "First"; "zed"; "3"; ""; ""; ""; ""; ""; ""; "bob"]
    ["L1"; "First"; "zed"; "3"; ""; ""; ""; ""; ""; ""; "ann,bob"]
    "ann" eq_refl _ _ _ eq_refl _))))).
  - apply (bool_decide_unpack _). vm_compute. exact I.
  - repeat constructor; intros data row [= <-] Hlast;
      vm_compute in Hlast; try discriminate Hlast.
    injection Hlast as <-.
    apply (bool_decide_unpack _). vm_compute. exact I.
  - vm_compute. constructor.
  - apply (bool_decide_unpack _). vm_compute. exact I.
Defined.

(** ** One level id in several rows *)

Lemma filter_length_pos {A} (P : A → Prop) `{!∀ x, Decision (P x)}
    (l : list A) x :
  x ∈ l → P x → (1 ≤ length (filter P l))%nat.
Proof.
  intros Hin HP. assert (Hx : x ∈ filter P l) by by apply list_elem_of_filter.
  destruct (filter P l); [by inversion Hx|simpl; lia].
Qed.

Lemma new_victor_in_row_sent st username_to_id_map row a :
  first_check_done st = true → has_level_id row = true →
  a ∈ parse_victors (cell (pad row) "VICTORS") →
  a ∉ default ∅ (previous_victors st !! level_id_of row) →
  Notification a (cell (pad row) "LEVEL_NAME") (cell (pad row) "CREATOR")
    (cell (pad row) "DIFFICULTY") username_to_id_map
  ∈ row_sent st username_to_id_map row.
Proof.
  intros Hflag Hid Hcur Hprev. rewrite row_sent_sorted by done.
  apply list_elem_of_fmap. exists a. split; [done|].
  apply sorted_elem_of. by apply elem_of_difference.
Qed.

Lemma sent_per_duplicate_row st username_to_id_map k a rows :
  first_check_done st = true →
  a ∉ default ∅ (previous_victors st !! k) →
  (length (filter (λ row, a ∈ parse_victors (cell (pad row) "VICTORS"))
                  (Spec.rows_of k rows))
   ≤ length (filter (λ n, sent_victor_name n = a)
                    (concat (row_sent st username_to_id_map <$> rows))))%nat.
Proof.
  intros Hflag Hprev. induction rows as [|r rows IH]; [done|].
  rewrite fmap_cons. simpl. rewrite filter_app, length_app.
  unfold Spec.rows_of. rewrite filter_cons.
  fold (Spec.rows_of k rows).
  destruct (decide (has_level_id r ∧ level_id_of r = k)) as [[Hid Hk]|_];
    [|lia].
  rewrite filter_cons.
  destruct (decide (a ∈ parse_victors (cell (pad r) "VICTORS")))
    as [Hcur|_]; [|lia].
  apply Is_true_true in Hid. subst k. simpl.
  pose proof (filter_length_pos (λ n, sent_victor_name n = a)
                (row_sent st username_to_id_map r) _
                (new_victor_in_row_sent st username_to_id_map r a
                   Hflag Hid Hcur Hprev) eq_refl).
  lia.
Qed.

(** C10: with the baseline flag set, take a level id [k], a victor [a]
    not in the set recorded for [k] before the cycle, and any row of the
    snapshot that carries [k] and lists [a].  The calls of the cycle are
    those of its rows, each row compared with the sets recorded before
    the cycle; this row sends [a] once, whatever the rows before it; over
    the cycle there are at least as many calls for [a] as rows of [k]
    that list [a]; and afterwards the set recorded for [k] is that of the
    last row that carries [k]. *)
Theorem duplicate_rows_each_send st data k a row :
  first_check_done st = true →
  a ∉ default ∅ (previous_victors st !! k) →
  row ∈ Spec.rows_of k (drop 1 data) →
  a ∈ parse_victors (cell (pad row) "VICTORS") →
  let out := check_cycle (Rows data) st in
  let um := username_map_of data in
  out.2 = concat (row_sent st um <$> drop 1 data)
  ∧ sent_victor_name <$> row_sent st um row
    = sorted (parse_victors (cell (pad row) "VICTORS")
              ∖ default ∅ (previous_victors st !! k))
  ∧ Notification a (cell (pad row) "LEVEL_NAME") (cell (pad row) "CREATOR")
      (cell (pad row) "DIFFICULTY") um ∈ row_sent st um row
  ∧ NoDup (row_sent st um row)
  ∧ (length (filter (λ r, a ∈ parse_victors (cell (pad r) "VICTORS"))
                    (Spec.rows_of k (drop 1 data)))
     ≤ length (filter (λ n, sent_victor_name n = a) out.2))%nat
  ∧ ∃ last_row,
      last (Spec.rows_of k (drop 1 data)) = Some last_row
      ∧ previous_victors out.1 !! k
        = Some (parse_victors (cell (pad last_row) "VICTORS")).
Proof.
  intros Hflag Hprev Hrow Hcur out um.
  apply list_elem_of_filter in Hrow as [[Hid Hk] Hrow].
  apply Is_true_true in Hid.
  assert (Hout : out.2 = concat (row_sent st um <$> drop 1 data)).
  { subst out. unfold check_cycle, fetch_sheet_data. apply cycle_sent. }
  split_and!.
  - done.
  - subst k. by rewrite row_sent_names.
  - subst k. by apply new_victor_in_row_sent.
  - apply row_sent_NoDup.
  - rewrite Hout. by apply sent_per_duplicate_row.
  - destruct (last (Spec.rows_of k (drop 1 data))) as [last_row|] eqn:Hlast.
    + exists last_row. split; [done|]. subst out.
      unfold check_cycle, fetch_sheet_data. by rewrite cycle_previous, Hlast.
    + apply last_None in Hlast.
      assert (Hin : row ∈ Spec.rows_of k (drop 1 data)).
      { apply list_elem_of_filter. split; [|done].
        split; [by apply Is_true_true|done]. }
      rewrite Hlast in Hin. by inversion Hin.
Qed.

Lemma duplicate_rows_each_send_witness :
  (2 ≤ length
         (filter (λ n, sent_victor_name n = "ann")
            (check_cycle
               (Rows [["ALDR ID"];
                      ["L1"; "First"; "zed"; "3"; ""; ""; ""; ""; ""; "";
                       "ann"];
                      ["L1"; "First"; "zed"; "3"; ""; ""; ""; ""; ""; "";
                       "ann, bob"]])
               (State ∅ true)).2))%nat.
Proof.
  refine (proj1 (proj2 (proj2 (proj2 (proj2
    (duplicate_rows_each_send (State ∅ true)
       [["ALDR ID"];
        ["L1"; "First"; "zed"; "3"; ""; ""; ""; ""; ""; ""; "ann"];
        ["L1"; "First"; "zed"; "3"; ""; ""; ""; ""; ""; ""; "ann, bob"]]
       "L1" "ann"
       ["L1"; "First"; "zed"; "3"; ""; ""; ""; ""; ""; ""; "ann"]
       eq_refl _ _ _))))));
    apply (bool_decide_unpack _); vm_compute; exact I.
Defined.

(** ** The tier classifier *)

Lemma named_tier_not_numeric x d :
  PyFloat.float x = Some d → DIFFICULTY_EMOJI_MAP !! x = None.
Proof.
  intros Hfloat. destruct (DIFFICULTY_EMOJI_MAP !! x) as [e|] eqn:Hnamed;
    [|done].
  apply elem_of_list_to_map_2 in Hnamed.
  repeat (apply elem_of_cons in Hnamed as [Hnamed|Hnamed];
          [injection Hnamed as -> ->; vm_compute in Hfloat; discriminate|]).
  by inversion Hnamed.
Qed.

Lemma numeric_emoji_first_below d :
  numeric_emoji d = Spec.first_below Spec.monitor_bands Spec.monitor_top d.
Proof. reflexivity. Qed.

Lemma numeric_emoji_at_boundary i upper_bound token :
  Spec.monitor_bands !! i = Some (upper_bound, token) →
  numeric_emoji upper_bound
  = Spec.tier_above Spec.monitor_bands Spec.monitor_top i.
Proof.
  intros Hband.
  do 9 (destruct i as [|i]; [injection Hband as <- _; reflexivity|]).
  discriminate Hband.
Qed.

Lemma finite_le_inv m e m' e' :
  SFleb (S754_finite false m' e') (S754_finite false m e) = true →
  (e' < e)%Z ∨ (e' = e ∧ (m' ≤ m)%positive).
Proof.
  unfold SFleb, SFcompare. change (Pos.compare_cont Eq) with Pos.compare.
  destruct (Z.compare_spec e' e) as [->| |]; [|by left|discriminate].
  destruct (Pos.compare_spec m' m); [right; split; lia..|discriminate].
Qed.

Lemma finite_lt_false m e m' e' :
  (e' < e)%Z ∨ (e' = e ∧ (m' ≤ m)%positive) →
  SFltb (S754_finite false m e) (S754_finite false m' e') = false.
Proof.
  unfold SFltb, SFcompare. change (Pos.compare_cont Eq) with Pos.compare.
  intros Hle. destruct (Z.compare_spec e e') as [->| |]; [|lia|done].
  destruct (Pos.compare_spec m m'); [done|lia|done].
Qed.

Lemma numeric_emoji_top d :
  PyFloat.le f9_5 d = true → numeric_emoji d = Spec.monitor_top.
Proof.
  unfold PyFloat.le.
  destruct d as [[|]|[|]| |[|] m e]; try discriminate; try reflexivity.
  unfold f9_5. intros Hle%finite_le_inv.
  unfold numeric_emoji, PyFloat.lt,
    f1_5, f2_5, f3_5, f4_5, f5_5, f6_5, f7_5, f8_5, f9_5.
  rewrite !finite_lt_false by lia. reflexivity.
Qed.

Lemma monitor_bands_ascending :
  StronglySorted (λ x y, PyFloat.lt x.1 y.1 = true) Spec.monitor_bands.
Proof. repeat constructor. Qed.

(** C7: for a text that [float] reads as [d], the classifier of the
    monitor returns the token of the first of its ascending upper bounds
    1.5, 2.5, ..., 9.5 that [d] is strictly below; so a value equal to a
    bound gets the tier just above that bound, and a value at or above
    9.5 gets the top tier. *)
Theorem numeric_difficulty_first_bound_above s d :
  PyFloat.float (PyStr.lower (PyStr.strip s)) = Some d →
  get_difficulty_emoji s
  = Spec.first_below Spec.monitor_bands Spec.monitor_top d
  ∧ (∀ i upper_bound token,
       Spec.monitor_bands !! i = Some (upper_bound, token) →
       d = upper_bound →
       get_difficulty_emoji s
       = Spec.tier_above Spec.monitor_bands Spec.monitor_top i)
  ∧ (PyFloat.le f9_5 d = true → get_difficulty_emoji s = Spec.monitor_top).
Proof.
  intros Hfloat.
  assert (Hget : get_difficulty_emoji s = numeric_emoji d).
  { unfold get_difficulty_emoji.
    by rewrite (named_tier_not_numeric _ d Hfloat), Hfloat. }
  rewrite Hget. split_and!.
  - apply numeric_emoji_first_below.
  - intros i upper_bound token Hband ->.
    by apply (numeric_emoji_at_boundary i upper_bound token).
  - apply numeric_emoji_top.
Qed.

Lemma numeric_difficulty_first_bound_above_witness :
  get_difficulty_emoji " 2.5 " = "<:hard:1464320167571095766>".
Proof.
  exact (proj1 (proj2 (numeric_difficulty_first_bound_above " 2.5 " f2_5
                         eq_refl))
           1%nat f2_5 "<:medium:1464320095034802289>" eq_refl eq_refl).
Defined.

Lemma fallback_is_normalised_text s :
  DIFFICULTY_EMOJI_MAP !! PyStr.lower (PyStr.strip s) = None →
  PyFloat.float (PyStr.lower (PyStr.strip s)) = None →
  get_difficulty_emoji s = PyStr.lower (PyStr.strip s).
Proof.
  intros Hnamed Hfloat. unfold get_difficulty_emoji.
  by rewrite Hnamed, Hfloat.
Qed.

Lemma manual_fallback_is_normalised_text s :
  SendManual.DIFFICULTY_EMOJI_MAP !! PyStr.lower (PyStr.strip s) = None →
  PyFloat.float (PyStr.lower (PyStr.strip s)) = None →
  SendManual.get_difficulty_emoji s = PyStr.lower (PyStr.strip s).
Proof.
  intros Hnamed Hfloat. unfold SendManual.get_difficulty_emoji.
  by rewrite Hnamed, Hfloat.
Qed.

(** C6 at the text ["Unknown"]: it is no named tier and [float] rejects
    it, and both classifiers return ["unknown"], the stripped and
    lower-cased text, not the text they were given; the monitor then
    posts the two spellings side by side. *)
Theorem unparsed_difficulty_comes_back_normalised :
  DIFFICULTY_EMOJI_MAP !! PyStr.lower (PyStr.strip "Unknown") = None
  ∧ PyFloat.float (PyStr.lower (PyStr.strip "Unknown")) = None
  ∧ get_difficulty_emoji "Unknown" = "unknown"
  ∧ SendManual.get_difficulty_emoji "Unknown" = "unknown"
  ∧ get_difficulty_emoji "Unknown" ≠ "Unknown"
  ∧ message (Notification "ann" "First" "zed" "Unknown" ∅)
    = "**ann** has beaten **First** by zed - Difficulty: Unknown [unknown]".
Proof. vm_compute. by repeat split. Qed.

(** C8: the text ["0.5"] is read as a number, and the classifier of the
    monitor puts it in [easy] while the one of the manual sender puts it
    in [effortless]: the first upper bound is 1.5 in one and 1.0 in the
    other. *)
Theorem classifiers_disagree_on_half :
  ∃ s d,
    PyFloat.float (PyStr.lower (PyStr.strip s)) = Some d
    ∧ get_difficulty_emoji s = "<:easy:1464320027963424912>"
    ∧ SendManual.get_difficulty_emoji s = "<:effortless:1470940267782869188>"
    ∧ get_difficulty_emoji s ≠ SendManual.get_difficulty_emoji s
    ∧ f1_5 ≠ SendManual.f1.
Proof.
  exists "0.5", (S754_finite false 4503599627370496 (-53)).
  vm_compute. by repeat split.
Qed.

(** ** [strip] and [lower] *)

Lemma string_app_nil_r (s : string) : s ++ "" = s.
Proof.
  induction s as [|c s IH]; [done|].
  change (String c (s ++ "") = String c s). by rewrite IH.
Qed.

Lemma string_app_assoc (s t u : string) : (s ++ t) ++ u = s ++ (t ++ u).
Proof.
  induction s as [|c s IH]; [done|].
  change (String c ((s ++ t) ++ u) = String c (s ++ (t ++ u))).
  by rewrite IH.
Qed.

Lemma rev_app_spec (s acc : string) :
  String.rev_app s acc = String.rev s ++ acc.
Proof.
  unfold String.rev. revert acc.
  induction s as [|c s IH]; intros acc; [done|]. simpl.
  rewrite (IH (String c acc)), (IH (String c "")).
  by rewrite string_app_assoc.
Qed.

Lemma rev_cons c s : String.rev (String c s) = String.rev s ++ String c "".
Proof. unfold String.rev at 1. simpl. apply rev_app_spec. Qed.

Lemma rev_app_snoc s c acc :
  String.rev_app (s ++ String c "") acc = String c (String.rev_app s acc).
Proof.
  revert acc. induction s as [|d s IH]; intros acc; [done|].
  change (String.rev_app (s ++ String c "") (String d acc)
          = String c (String.rev_app s (String d acc))).
  apply IH.
Qed.

Lemma rev_snoc s c : String.rev (s ++ String c "") = String c (String.rev s).
Proof. apply rev_app_snoc. Qed.

Lemma lstrip_snoc s c :
  PyStr.lstrip (s ++ String c "")
  = match PyStr.lstrip s with
    | EmptyString => if PyStr.is_space c then "" else String c ""
    | String d r => String d r ++ String c ""
    end.
Proof.
  induction s as [|d s IH].
  - change ("" ++ String c "") with (String c ""). simpl.
    by destruct (PyStr.is_space c).
  - change (String d s ++ String c "") with (String d (s ++ String c "")).
    simpl. destruct (PyStr.is_space d); [apply IH|done].
Qed.

Lemma rstrip_nil : PyStr.rstrip "" = "".
Proof. reflexivity. Qed.

Lemma rstrip_cons c s :
  PyStr.rstrip (String c s)
  = match PyStr.rstrip s with
    | EmptyString => if PyStr.is_space c then "" else String c ""
    | String d r => String c (String d r)
    end.
Proof.
  unfold PyStr.rstrip. rewrite rev_cons, lstrip_snoc.
  destruct (PyStr.lstrip (String.rev s)) as [|d r].
  - by destruct (PyStr.is_space c).
  - rewrite rev_snoc. by destruct (String.rev (String d r)) eqn:Hrev;
      [rewrite rev_cons in Hrev; destruct (String.rev r)|].
Qed.

Lemma lstrip_idemp s : PyStr.lstrip (PyStr.lstrip s) = PyStr.lstrip s.
Proof.
  induction s as [|c s IH]; [done|]. simpl.
  destruct (PyStr.is_space c) eqn:Hc; [done|]. simpl. by rewrite Hc.
Qed.

Lemma rstrip_idemp s : PyStr.rstrip (PyStr.rstrip s) = PyStr.rstrip s.
Proof.
  induction s as [|c s IH]; [done|]. rewrite rstrip_cons.
  destruct (PyStr.rstrip s) as [|d r] eqn:Hr.
  - destruct (PyStr.is_space c) eqn:Hc; [done|].
    by rewrite rstrip_cons, rstrip_nil, Hc.
  - by rewrite rstrip_cons, IH.
Qed.

Lemma lstrip_rstrip s :
  PyStr.lstrip (PyStr.rstrip s) = PyStr.rstrip (PyStr.lstrip s).
Proof.
  induction s as [|c s IH]; [done|]. simpl PyStr.lstrip at 2.
  rewrite rstrip_cons. destruct (PyStr.is_space c) eqn:Hc.
  - rewrite <- IH. destruct (PyStr.rstrip s) as [|d r]; [done|].
    simpl. by rewrite Hc.
  - rewrite rstrip_cons.
    destruct (PyStr.rstrip s) as [|d r]; simpl; by rewrite Hc.
Qed.

Lemma strip_idemp s : PyStr.strip (PyStr.strip s) = PyStr.strip s.
Proof.
  unfold PyStr.strip.
  by rewrite lstrip_rstrip, lstrip_idemp, rstrip_idemp.
Qed.

Lemma is_space_lower_char c :
  PyStr.is_space (PyStr.lower_char c) = PyStr.is_space c.
Proof. by destruct c as [[] [] [] [] [] [] [] []]. Qed.

Lemma lower_char_idemp c :
  PyStr.lower_char (PyStr.lower_char c) = PyStr.lower_char c.
Proof. by destruct c as [[] [] [] [] [] [] [] []]. Qed.

Lemma lower_idemp s : PyStr.lower (PyStr.lower s) = PyStr.lower s.
Proof.
  induction s as [|c s IH]; [done|]. simpl.
  by rewrite lower_char_idemp, IH.
Qed.

Lemma lstrip_lower s :
  PyStr.lstrip (PyStr.lower s) = PyStr.lower (PyStr.lstrip s).
Proof.
  induction s as [|c s IH]; [done|]. simpl.
  rewrite is_space_lower_char. by destruct (PyStr.is_space c).
Qed.

Lemma rstrip_lower s :
  PyStr.rstrip (PyStr.lower s) = PyStr.lower (PyStr.rstrip s).
Proof.
  induction s as [|c s IH]; [done|].
  change (PyStr.lower (String c s))
    with (String (PyStr.lower_char c) (PyStr.lower s)).
  rewrite !rstrip_cons, IH, is_space_lower_char.
  destruct (PyStr.rstrip s) as [|d r]; [|done].
  by destruct (PyStr.is_space c).
Qed.

Lemma strip_lower s :
  PyStr.strip (PyStr.lower s) = PyStr.lower (PyStr.strip s).
Proof. unfold PyStr.strip. by rewrite lstrip_lower, rstrip_lower. Qed.

(** ** More on the two classifiers *)

(** X1: both classifiers give the same token for a text, for the text
    with the whitespace at its ends dropped, and for the text in lower
    case. *)
Theorem classifier_ignores_case_and_margin s :
  get_difficulty_emoji (PyStr.strip s) = get_difficulty_emoji s
  ∧ get_difficulty_emoji (PyStr.lower s) = get_difficulty_emoji s
  ∧ SendManual.get_difficulty_emoji (PyStr.strip s)
    = SendManual.get_difficulty_emoji s
  ∧ SendManual.get_difficulty_emoji (PyStr.lower s)
    = SendManual.get_difficulty_emoji s.
Proof.
  unfold get_difficulty_emoji, SendManual.get_difficulty_emoji.
  by rewrite strip_idemp, strip_lower, lower_idemp.
Qed.

Lemma manual_named_tier_not_numeric x d :
  PyFloat.float x = Some d → SendManual.DIFFICULTY_EMOJI_MAP !! x = None.
Proof.
  intros Hfloat.
  destruct (SendManual.DIFFICULTY_EMOJI_MAP !! x) as [e|] eqn:Hnamed;
    [|done].
  apply elem_of_list_to_map_2 in Hnamed.
  repeat (apply elem_of_cons in Hnamed as [Hnamed|Hnamed];
          [injection Hnamed as -> ->; vm_compute in Hfloat; discriminate|]).
  by inversion Hnamed.
Qed.

Lemma manual_numeric_emoji_at_boundary i upper_bound token :
  Shape.manual_bands !! i = Some (upper_bound, token) →
  SendManual.numeric_emoji upper_bound
  = Spec.tier_above Shape.manual_bands Shape.manual_top i.
Proof.
  intros Hband.
  do 15 (destruct i as [|i]; [injection Hband as <- _; reflexivity|]).
  discriminate Hband.
Qed.

Lemma manual_numeric_emoji_top d :
  PyFloat.le SendManual.f15 d = true →
  SendManual.numeric_emoji d = Shape.manual_top.
Proof.
  unfold PyFloat.le.
  destruct d as [[|]|[|]| |[|] m e]; try discriminate; try reflexivity.
  unfold SendManual.f15. intros Hle%finite_le_inv.
  unfold SendManual.numeric_emoji, PyFloat.lt,
    SendManual.f1, SendManual.f2, SendManual.f3, SendManual.f4,
    SendManual.f5, SendManual.f6, SendManual.f7, SendManual.f8,
    SendManual.f9, SendManual.f10, SendManual.f11, SendManual.f12,
    SendManual.f13, SendManual.f14, SendManual.f15.
  rewrite !finite_lt_false by lia. reflexivity.
Qed.

(** X2: for a text that [float] reads as [d], the classifier of the
    manual sender returns the token of the first of its ascending upper
    bounds 1.0, 2.0, ..., 15.0 that [d] is strictly below; a value equal
    to a bound gets the tier just above it, and a value at or above 15.0
    gets [tas2]. *)
Theorem manual_numeric_difficulty_first_bound_above s d :
  PyFloat.float (PyStr.lower (PyStr.strip s)) = Some d →
  SendManual.get_difficulty_emoji s
  = Spec.first_below Shape.manual_bands Shape.manual_top d
  ∧ (∀ i upper_bound token,
       Shape.manual_bands !! i = Some (upper_bound, token) →
       d = upper_bound →
       SendManual.get_difficulty_emoji s
       = Spec.tier_above Shape.manual_bands Shape.manual_top i)
  ∧ (PyFloat.le SendManual.f15 d = true →
     SendManual.get_difficulty_emoji s = Shape.manual_top).
Proof.
  intros Hfloat.
  assert (Hget : SendManual.get_difficulty_emoji s
                 = SendManual.numeric_emoji d).
  { unfold SendManual.get_difficulty_emoji.
    by rewrite (manual_named_tier_not_numeric _ d Hfloat), Hfloat. }
  rewrite Hget. split_and!.
  - reflexivity.
  - intros i upper_bound token Hband ->.
    by apply (manual_numeric_emoji_at_boundary i upper_bound token).
  - apply manual_numeric_emoji_top.
Qed.

Lemma manual_numeric_difficulty_first_bound_above_witness :
  SendManual.get_difficulty_emoji " 10 " = "<:grandmaster:1464320611038924874>".
Proof.
  exact (proj1 (proj2 (manual_numeric_difficulty_first_bound_above " 10 "
                         SendManual.f10 eq_refl))
           9%nat SendManual.f10 "<:master:1464320549600755937>"
           eq_refl eq_refl).
Defined.

(** X3: a text that [float] reads as not-a-number fails every [<] test of
    both chains and so gets the last tier of each: [grandmaster] from the
    monitor, [tas2] from the manual sender. *)
Theorem nan_gets_last_tier s :
  PyFloat.float (PyStr.lower (PyStr.strip s)) = Some S754_nan →
  get_difficulty_emoji s = "<:grandmaster:1464320611038924874>"
  ∧ SendManual.get_difficulty_emoji s = "<:tas2:1464320904061518007>".
Proof.
  intros Hfloat.
  unfold get_difficulty_emoji, SendManual.get_difficulty_emoji.
  rewrite (named_tier_not_numeric _ _ Hfloat),
    (manual_named_tier_not_numeric _ _ Hfloat), Hfloat.
  by split.
Qed.

Lemma nan_gets_last_tier_witness :
  get_difficulty_emoji "NaN" = "<:grandmaster:1464320611038924874>"
  ∧ SendManual.get_difficulty_emoji "NaN" = "<:tas2:1464320904061518007>".
Proof. exact (nan_gets_last_tier "NaN" eq_refl). Defined.

(** X4: on every text that normalises to a named tier of the monitor,
    the two classifiers return the same token, the one the monitor's
    table holds; and on a text that normalises to [effortless], the one
    name only the manual sender knows, the monitor returns the text
    [effortless] itself. *)
Theorem named_tiers_agree s :
  (∀ emoji,
     DIFFICULTY_EMOJI_MAP !! PyStr.lower (PyStr.strip s) = Some emoji →
     get_difficulty_emoji s = emoji
     ∧ SendManual.get_difficulty_emoji s = emoji)
  ∧ (PyStr.lower (PyStr.strip s) = "effortless" →
     get_difficulty_emoji s = "effortless"
     ∧ SendManual.get_difficulty_emoji s
       = "<:effortless:1470940267782869188>").
Proof.
  unfold get_difficulty_emoji, SendManual.get_difficulty_emoji. split.
  - intros emoji Hnamed. rewrite Hnamed. split; [done|].
    apply elem_of_list_to_map_2 in Hnamed.
    repeat (apply elem_of_cons in Hnamed as [Hnamed|Hnamed];
            [injection Hnamed as -> ->; reflexivity|]).
    by inversion Hnamed.
  - by intros ->.
Qed.

Lemma named_tiers_agree_witness :
  get_difficulty_emoji " Hard" = "<:hard:1464320167571095766>"
  ∧ SendManual.get_difficulty_emoji " Hard" = "<:hard:1464320167571095766>".
Proof.
  exact (proj1 (named_tiers_agree " Hard") "<:hard:1464320167571095766>"
           eq_refl).
Defined.

(** ** Reading a row *)

Lemma cell_pad row name : cell (pad row) name = cell row name.
Proof.
  unfold cell, pad. set (i := default 0%nat (COLUMN_MAP !! name)).
  destruct (row !! i) as [field|] eqn:Hrow.
  - by rewrite (lookup_app_l_Some _ _ _ _ Hrow).
  - apply lookup_ge_None in Hrow. rewrite lookup_app_r by done.
    destruct (replicate _ _ !! _) as [field|] eqn:Hpad; [|done].
    by apply lookup_replicate in Hpad as [-> _].
Qed.

(** X5: the padding of a row changes nothing that is read from it: every
    column reads the same from the padded row as from the row itself, and
    a column beyond the end of the row reads as the empty text. *)
Theorem padding_is_not_observed row name :
  cell (pad row) name = cell row name
  ∧ ((length row ≤ default 0 (COLUMN_MAP !! name))%nat →
     cell (pad row) name = "").
Proof.
  split; [apply cell_pad|]. intros Hshort. rewrite cell_pad.
  unfold cell. by rewrite (proj2 (lookup_ge_None _ _) Hshort).
Qed.

Lemma padding_is_not_observed_witness :
  cell (pad ["L1"; "First"]) "VICTORS" = "".
Proof.
  apply (proj2 (padding_is_not_observed ["L1"; "First"] "VICTORS")).
  vm_compute. lia.
Defined.

Lemma cell_stripped row name : PyStr.strip (cell row name) = cell row name.
Proof.
  unfold cell. destruct (row !! _); [apply strip_idemp|done].
Qed.

Lemma truthy_nonempty s : PyStr.truthy s = true ↔ s ≠ "".
Proof. by destruct s. Qed.

Lemma parse_victors_elem victors_str v :
  v ∈ parse_victors victors_str
  ↔ ∃ piece, piece ∈ PyStr.split "," victors_str
             ∧ v = PyStr.strip piece ∧ v ≠ "".
Proof.
  unfold parse_victors. rewrite elem_of_list_to_set, list_elem_of_fmap.
  split.
  - intros (piece & -> & [Hkeep Hin]%list_elem_of_filter).
    exists piece. split_and!; [done..|].
    by apply truthy_nonempty, Is_true_true.
  - intros (piece & Hin & -> & Hne). exists piece. split; [done|].
    apply list_elem_of_filter. split; [|done].
    by apply Is_true_true, truthy_nonempty.
Qed.

(** X6: every name in the victor set read from a cell is non-empty and
    has no whitespace at either end, and the level id of a row the second
    loop keeps is such a text too. *)
Theorem names_read_are_clean victors_str row :
  (∀ v, v ∈ parse_victors victors_str → Shape.clean v)
  ∧ (has_level_id row = true → Shape.clean (level_id_of row)).
Proof.
  split.
  - intros v (piece & _ & -> & Hne)%parse_victors_elem.
    split; [done|apply strip_idemp].
  - intros Hid. split; [by apply truthy_nonempty|].
    unfold level_id_of. apply cell_stripped.
Qed.

Lemma names_read_are_clean_witness :
  Shape.clean (level_id_of [" L1 "; "First"]).
Proof. exact (proj2 (names_read_are_clean "" [" L1 "; "First"]) eq_refl). Defined.

Lemma split_nonempty sep s : PyStr.split sep s ≠ [].
Proof.
  destruct s as [|c s]; [done|]. simpl.
  destruct (Ascii.eqb c sep); [done|]. by destruct (PyStr.split sep s).
Qed.

Lemma split_app sep a b :
  PyStr.split sep (a ++ String sep b)
  = (PyStr.split sep a ++ PyStr.split sep b)%list.
Proof.
  induction a as [|c a IH].
  - change ("" ++ String sep b) with (String sep b). simpl.
    by rewrite Ascii.eqb_refl.
  - change (String c a ++ String sep b) with (String c (a ++ String sep b)).
    simpl. rewrite IH. destruct (Ascii.eqb c sep); [done|].
    pose proof (split_nonempty sep a).
    by destruct (PyStr.split sep a).
Qed.

(** X7: the victor set of two lists joined by a comma is the union of
    their victor sets; so neither the order in which the victors are
    listed in the cell nor a name listed twice changes the set. *)
Theorem parse_victors_join a b :
  parse_victors (a ++ "," ++ b) = parse_victors a ∪ parse_victors b
  ∧ parse_victors (a ++ "," ++ b) = parse_victors (b ++ "," ++ a)
  ∧ parse_victors (a ++ "," ++ a) = parse_victors a.
Proof.
  assert (Hjoin : ∀ x y, parse_victors (x ++ "," ++ y)
                         = parse_victors x ∪ parse_victors y).
  { intros x y. unfold parse_victors.
    change ("," ++ y) with (String "," y).
    by rewrite split_app, filter_app, fmap_app, list_to_set_app_L. }
  split_and!.
  - apply Hjoin.
  - rewrite !Hjoin. apply (comm_L (∪)).
  - rewrite Hjoin. apply (idemp_L (∪)).
Qed.

(** ** The mapping from tracker usernames to Discord ids *)

Lemma username_fold rows m u :
  foldl username_step m rows !! u
  = match last (Shape.username_rows u rows) with
    | Some row => Some (cell (pad row) "DISCORD_ID")
    | None => m !! u
    end.
Proof.
  revert m. induction rows as [|row rows IH]; intros m; [done|].
  simpl. rewrite IH. unfold Shape.username_rows. rewrite filter_cons.
  unfold username_step. cbv zeta.
  destruct (decide (PyStr.truthy (cell (pad row) "TRACKER_USERNAME")
                    ∧ PyStr.truthy (cell (pad row) "DISCORD_ID")
                    ∧ cell (pad row) "TRACKER_USERNAME" = u))
    as [(Hu & Hd & <-)|Hrow].
  - apply Is_true_true in Hu, Hd. rewrite Hu, Hd. simpl.
    rewrite last_cons. destruct (last _); [done|].
    by rewrite lookup_insert_eq.
  - destruct (last _); [done|].
    destruct (PyStr.truthy (cell (pad row) "TRACKER_USERNAME")) eqn:Hu;
      [|done].
    destruct (PyStr.truthy (cell (pad row) "DISCORD_ID")) eqn:Hd; [|done].
    simpl. rewrite lookup_insert_ne; [done|]. intros Hk. by apply Hrow.
Qed.

(** X8: the Discord id the mapping holds for a username is the one in the
    last row of the sheet that has both this username and an id; a
    username with no such row is not a key; and no key and no id in the
    mapping is empty. *)
Theorem username_map_last_writer data u :
  username_map_of data !! u
  = (λ row, cell (pad row) "DISCORD_ID")
      <$> last (Shape.username_rows u (drop 1 data))
  ∧ (∀ discord_id,
       username_map_of data !! u = Some discord_id →
       u ≠ "" ∧ discord_id ≠ "").
Proof.
  assert (Hmap : username_map_of data !! u
                 = (λ row, cell (pad row) "DISCORD_ID")
                     <$> last (Shape.username_rows u (drop 1 data))).
  { unfold username_map_of. rewrite username_fold.
    destruct (last _); [done|]. by rewrite lookup_empty. }
  split; [done|]. intros discord_id. rewrite Hmap.
  destruct (last _) as [row|] eqn:Hlast; [|done].
  intros [= <-]. apply last_Some_elem_of in Hlast.
  apply list_elem_of_filter in Hlast as [(Hu & Hd & <-) _].
  split; by apply truthy_nonempty, Is_true_true.
Qed.

Lemma username_map_last_writer_witness :
  username_map_of
    [["ALDR ID"];
     ["L1"; ""; ""; ""; ""; ""; ""; ""; ""; ""; ""; ""; ""; ""; ""; ""; "";
      ""; ""; ""; ""; ""; "ann"; ""; "111"];
     ["L2"; ""; ""; ""; ""; ""; ""; ""; ""; ""; ""; ""; ""; ""; ""; ""; "";
      ""; ""; ""; ""; ""; " ann "; ""; "222"]] !! "ann" = Some "222".
Proof.
  exact (proj1 (username_map_last_writer
    [["ALDR ID"];
     ["L1"; ""; ""; ""; ""; ""; ""; ""; ""; ""; ""; ""; ""; ""; ""; ""; "";
      ""; ""; ""; ""; ""; "ann"; ""; "111"];
     ["L2"; ""; ""; ""; ""; ""; ""; ""; ""; ""; ""; ""; ""; ""; ""; ""; "";
      ""; ""; ""; ""; ""; " ann "; ""; "222"]] "ann")).
Defined.

(** X9: a row with fewer than twenty-five fields adds nothing to the
    mapping: the padding stops at the fifteen entries of [COLUMN_MAP],
    short of the Discord id in column 24. *)
Theorem short_row_names_nobody username_to_id_map row :
  (length row ≤ 24)%nat →
  username_step username_to_id_map row = username_to_id_map.
Proof.
  intros Hshort. unfold username_step. cbv zeta.
  assert (Hid : cell (pad row) "DISCORD_ID" = "").
  { rewrite cell_pad. unfold cell.
    change (default 0%nat (COLUMN_MAP !! "DISCORD_ID")) with 24%nat.
    by rewrite (proj2 (lookup_ge_None _ _) Hshort). }
  rewrite Hid. by rewrite andb_false_r.
Qed.

Lemma short_row_names_nobody_witness :
  username_step ∅
    ["L1"; ""; ""; ""; ""; ""; ""; ""; ""; ""; ""; ""; ""; ""; ""; ""; "";
     ""; ""; ""; ""; ""; "ann"; "111"] = ∅.
Proof. apply short_row_names_nobody. simpl. lia. Defined.

(** ** Invariants of the cycle *)

(** X10: once the baseline flag is set no cycle clears it, whatever the
    fetch met; and a cycle that read two rows or more always leaves it
    set. *)
Theorem baseline_flag_never_cleared f st :
  (first_check_done st = true →
   first_check_done (check_cycle f st).1 = true)
  ∧ (∀ data, f = Rows data → (2 ≤ length data)%nat →
             first_check_done (check_cycle f st).1 = true).
Proof.
  split.
  - intros Hflag. destruct f as [|data]; [done|].
    unfold check_cycle, fetch_sheet_data.
    destruct (decide (length data < 2)%nat).
    + by rewrite short_data_stops.
    + apply cycle_flag. lia.
  - intros data -> Hlen. by apply cycle_flag.
Qed.

Lemma baseline_flag_never_cleared_witness :
  first_check_done (check_cycle (Rows [["ALDR ID"]]) (State ∅ true)).1 = true.
Proof.
  exact (proj1 (baseline_flag_never_cleared (Rows [["ALDR ID"]])
                  (State ∅ true)) eq_refl).
Defined.

Lemma rows_of_present k rows :
  k ∈ Spec.level_ids rows ↔ is_Some (last (Spec.rows_of k rows)).
Proof.
  split.
  - intros (row & -> & [Hid Hin]%list_elem_of_filter)%list_elem_of_fmap.
    assert (Hrow : row ∈ Spec.rows_of (level_id_of row) rows).
    { apply list_elem_of_filter. by split. }
    destruct (last _) eqn:Hlast; [done|].
    apply last_None in Hlast. rewrite Hlast in Hrow. by inversion Hrow.
  - intros [row Hlast]. destruct (decide (k ∈ Spec.level_ids rows)); [done|].
    by rewrite rows_of_absent in Hlast.
Qed.

(** X11: the level ids with a recorded set after a cycle are those with
    one before together with the level ids of the rows read: no level id
    is ever dropped from the state. *)
Theorem recorded_ids_only_grow st data :
  dom (previous_victors (check_cycle (Rows data) st).1)
  = dom (previous_victors st) ∪ list_to_set (Spec.level_ids (drop 1 data)).
Proof.
  apply set_eq. intros k.
  rewrite elem_of_union, elem_of_list_to_set, !elem_of_dom, rows_of_present.
  unfold check_cycle, fetch_sheet_data. rewrite cycle_previous.
  destruct (last _) as [row|].
  - split; [by right|by eauto].
  - split; [by left|]. by intros [?|[? [=]]].
Qed.

Lemma elem_of_concat_fmap {A B} (f : A → list B) (l : list A) y :
  y ∈ concat (f <$> l) ↔ ∃ x, x ∈ l ∧ y ∈ f x.
Proof.
  induction l as [|x l IH]; simpl.
  - split; [by inversion 1|by intros (? & Hin & _); inversion Hin].
  - rewrite elem_of_app, IH. split.
    + intros [Hy|(x' & Hin & Hy)]; [exists x|exists x']; split; try done;
        [by left|by right].
    + intros (x' & [->|Hin]%elem_of_cons & Hy); [by left|right; eauto].
Qed.

(** X12: every call a cycle makes is for a victor that some kept row of
    the sheet lists and that is not in the set recorded, before the
    cycle, for that row's level id; it carries that row's level name,
    creators and difficulty; and no call is made unless the baseline flag
    was set.  So a victor already recorded for a level is never sent
    again from a row of that level. *)
Theorem every_call_is_a_new_victor st data n :
  n ∈ (check_cycle (Rows data) st).2 →
  first_check_done st = true
  ∧ ∃ row,
      row ∈ drop 1 data
      ∧ has_level_id row = true
      ∧ sent_victor_name n ∈ parse_victors (cell (pad row) "VICTORS")
      ∧ (sent_victor_name n
         ∉ default ∅ (previous_victors st !! level_id_of row))
      ∧ n = Notification (sent_victor_name n) (cell (pad row) "LEVEL_NAME")
              (cell (pad row) "CREATOR") (cell (pad row) "DIFFICULTY")
              (username_map_of data).
Proof.
  unfold check_cycle, fetch_sheet_data. rewrite cycle_sent.
  intros (row & Hrow & Hn)%elem_of_concat_fmap.
  destruct (first_check_done st) eqn:Hflag;
    [|by rewrite no_notification_before_baseline in Hn; [inversion Hn|]].
  split; [done|]. exists row.
  destruct (has_level_id row) eqn:Hid;
    [|unfold row_sent in Hn; rewrite Hid in Hn; by inversion Hn].
  rewrite row_sent_sorted in Hn by done.
  apply list_elem_of_fmap in Hn as (v & -> & Hv).
  apply sorted_elem_of, elem_of_difference in Hv as [Hcur Hprev].
  by split_and!.
Qed.

Lemma every_call_is_a_new_victor_witness :
  first_check_done (State {["L1" := {["ann"]}]} true) = true
  ∧ ∃ row,
      row ∈ drop 1 [["ALDR ID"];
                    ["L1"; "First"; "zed"; "3"; ""; ""; ""; ""; ""; "";
                     "ann, bob"]]
      ∧ has_level_id row = true
      ∧ "bob" ∈ parse_victors (cell (pad row) "VICTORS")
      ∧ ("bob" ∉ default ∅ (previous_victors
                              (State {["L1" := {["ann"]}]} true)
                            !! level_id_of row))
      ∧ Notification "bob" "First" "zed" "3" ∅
        = Notification "bob" (cell (pad row) "LEVEL_NAME")
            (cell (pad row) "CREATOR") (cell (pad row) "DIFFICULTY")
            (username_map_of
               [["ALDR ID"];
                ["L1"; "First"; "zed"; "3"; ""; ""; ""; ""; ""; "";
                 "ann, bob"]]).
Proof.
  apply (every_call_is_a_new_victor (State {["L1" := {["ann"]}]} true)
           [["ALDR ID"];
            ["L1"; "First"; "zed"; "3"; ""; ""; ""; ""; ""; ""; "ann, bob"]]
           (Notification "bob" "First" "zed" "3" ∅)).
  vm_compute. constructor.
Defined.

Lemma concat_fmap_nil {A B} (f : A → list B) (l : list A) :
  concat (f <$> l) = [] ↔ ∀ x, x ∈ l → f x = [].
Proof.
  split; [|apply concat_all_nil].
  intros Hnil x Hx. destruct (f x) as [|y ys] eqn:Hfx; [done|].
  assert (Hy : y ∈ concat (f <$> l)).
  { apply elem_of_concat_fmap. exists x. split; [done|].
    rewrite Hfx. by left. }
  rewrite Hnil in Hy. by inversion Hy.
Qed.

Lemma sorted_nil_iff s : sorted s = [] ↔ s = ∅.
Proof.
  split; [|intros ->; apply sorted_empty].
  intros Hnil. apply set_eq. intros v. rewrite <- sorted_elem_of, Hnil.
  split; [by inversion 1|by intros ?%not_elem_of_empty].
Qed.

(** X13: with the baseline flag set, a cycle makes no call exactly when
    no kept row lists a victor outside the set recorded for its level id;
    rows that only lose victors, or only change their other cells, are
    silent. *)
Theorem silent_iff_no_row_adds st data :
  first_check_done st = true →
  (check_cycle (Rows data) st).2 = []
  ↔ ∀ row, row ∈ drop 1 data → has_level_id row = true →
           parse_victors (cell (pad row) "VICTORS")
           ⊆ default ∅ (previous_victors st !! level_id_of row).
Proof.
  intros Hflag. unfold check_cycle, fetch_sheet_data.
  rewrite cycle_sent, concat_fmap_nil.
  apply forall_proper. intros row. apply forall_proper. intros Hrow.
  destruct (has_level_id row) eqn:Hid.
  - rewrite row_sent_sorted by done.
    change (victors (entry_of row))
      with (parse_victors (cell (pad row) "VICTORS")).
    split.
    + intros Hnew%fmap_nil_inv%sorted_nil_iff _ v Hv.
      destruct (decide (v ∈ default ∅
        (previous_victors st !! level_id_of row))) as [|Hout]; [done|].
      assert (Hin : v ∈ parse_victors (cell (pad row) "VICTORS")
                        ∖ default ∅ (previous_victors st !! level_id_of row))
        by by apply elem_of_difference.
      rewrite Hnew in Hin. by apply not_elem_of_empty in Hin.
    + intros Hsub.
      assert (Hnew : parse_victors (cell (pad row) "VICTORS")
                     ∖ default ∅ (previous_victors st !! level_id_of row)
                     = ∅).
      { apply set_eq. intros v. rewrite elem_of_difference.
        split; [|by intros ?%not_elem_of_empty].
        intros [Hv Hout]. exfalso. apply Hout. by apply Hsub. }
      by rewrite Hnew, sorted_empty.
  - unfold row_sent. rewrite Hid. by split.
Qed.

Lemma silent_iff_no_row_adds_witness :
  (check_cycle
     (Rows [["ALDR ID"];
            ["L1"; "Renamed"; "zed"; "4"; ""; ""; ""; ""; ""; ""; "ann"]])
     (State {["L1" := {["ann"; "bob"]}]} true)).2 = [].
Proof.
  apply (silent_iff_no_row_adds (State {["L1" := {["ann"; "bob"]}]} true)
           [["ALDR ID"];
            ["L1"; "Renamed"; "zed"; "4"; ""; ""; ""; ""; ""; ""; "ann"]]
           eq_refl).
  intros row Hrow _. apply list_elem_of_singleton in Hrow as ->.
  apply (bool_decide_unpack _). vm_compute. exact I.
Defined.

Lemma parse_victors_clean victors_str v :
  v ∈ parse_victors victors_str → Shape.clean v.
Proof.
  intros (piece & _ & -> & Hne)%parse_victors_elem.
  split; [done|apply strip_idemp].
Qed.

Lemma level_id_clean row :
  has_level_id row = true → Shape.clean (level_id_of row).
Proof.
  intros Hid. split; [by apply truthy_nonempty|].
  unfold level_id_of. apply cell_stripped.
Qed.

(** X14: the state a run starts from holds only clean texts (no empty
    level id or victor name, none with whitespace at an end), and every
    cycle, whatever the fetch met, keeps the state so. *)
Theorem recorded_texts_stay_clean f st :
  Shape.state_clean initial_state
  ∧ (Shape.state_clean st → Shape.state_clean (check_cycle f st).1).
Proof.
  split; [intros k V Hk; simpl in Hk; by rewrite lookup_empty in Hk|].
  intros Hclean. destruct f as [|data]; [done|].
  intros k V. unfold check_cycle, fetch_sheet_data.
  rewrite cycle_previous.
  destruct (last _) as [row|] eqn:Hlast; [|apply Hclean].
  intros [= <-]. apply last_Some_elem_of in Hlast.
  apply list_elem_of_filter in Hlast as [[Hid <-] _].
  apply Is_true_true in Hid. split; [by apply level_id_clean|].
  intros v. apply parse_victors_clean.
Qed.

Lemma recorded_texts_stay_clean_witness :
  Shape.state_clean
    (check_cycle
       (Rows [["ALDR ID"];
              [" L1 "; "First"; "zed"; "3"; ""; ""; ""; ""; ""; "";
               " ann ,, bob "]])
       initial_state).1.
Proof.
  apply recorded_texts_stay_clean.
  apply (proj1 (recorded_texts_stay_clean Raised initial_state)).
Defined.

(** ** The manual sender *)

Lemma victors_list_parse victors_str v :
  v ∈ SendManual.victors_list victors_str ↔ v ∈ parse_victors victors_str.
Proof. unfold parse_victors. by rewrite elem_of_list_to_set. Qed.

Lemma manual_send_exactly_when_aux f argv typed response victor text ok :
  SendManual.main f argv typed response = SendManual.Sent victor text ok
  ↔ ∃ data row_num row,
      f = Rows data
      ∧ SendManual.row_number argv typed = inr row_num
      ∧ (1 ≤ row_num ≤ Z.of_nat (length data) - 1)%Z
      ∧ data !! Z.to_nat row_num = Some row
      ∧ has_level_id row = true
      ∧ last (SendManual.victors_list (cell (pad row) "VICTORS"))
        = Some victor
      ∧ text = SendManual.message_text victor (cell (pad row) "LEVEL_NAME")
                 (cell (pad row) "CREATOR") (cell (pad row) "DIFFICULTY")
                 (username_map_of data)
      ∧ ok = match response with
             | SendManual.Status code =>
                 bool_decide (code = 200%Z ∨ code = 204%Z)
             | SendManual.PostRaised => false
             end.
Proof.
  unfold SendManual.main. split.
  - destruct f as [|data]; [done|]. simpl.
    destruct (bool_decide (data = []) || bool_decide (length data < 2)%nat)
      eqn:Hshort; [done|].
    destruct (SendManual.row_number argv typed) as [stop|row_num] eqn:Hnum.
    { intros ->. exfalso. unfold SendManual.row_number in Hnum.
      repeat case_match; simplify_eq. }
    destruct ((row_num <? 1)%Z || (Z.of_nat (length data) - 1 <? row_num)%Z)
      eqn:Hrange; [done|].
    apply orb_false_elim in Hrange as [Hlow%Z.ltb_ge Hhigh%Z.ltb_ge].
    destruct (data !! Z.to_nat row_num) as [row|] eqn:Hrow.
    2: { apply lookup_ge_None in Hrow. lia. }
    simpl. fold (level_id_of row). fold (has_level_id row).
    destruct (has_level_id row) eqn:Hid; [|done]. simpl.
    destruct (PyStr.truthy (cell (pad row) "VICTORS")); [|done]. simpl.
    destruct (last _) as [newest|] eqn:Hlast; [|done].
    intros [= <- <- <-]. exists data, row_num, row.
    by split_and!.
  - intros (data & row_num & row & -> & Hnum & [Hlow Hhigh] & Hrow & Hid
            & Hlast & -> & ->).
    simpl. rewrite Hnum.
    assert (Hlen : (Z.to_nat row_num < length data)%nat)
      by by eapply lookup_lt_Some.
    rewrite (bool_decide_eq_false_2 (data = []))
      by (intros ->; simpl in Hlen; lia).
    rewrite (bool_decide_eq_false_2 (length data < 2)%nat) by lia.
    simpl.
    rewrite (proj2 (Z.ltb_ge _ _) Hlow), (proj2 (Z.ltb_ge _ _) Hhigh).
    simpl. rewrite Hrow. simpl.
    fold (level_id_of row). fold (has_level_id row). rewrite Hid. simpl.
    destruct (cell (pad row) "VICTORS") eqn:Hcell; [done|]. simpl.
    by rewrite Hlast.
Qed.

(** X15: [main] of the manual sender reaches its call of
    [send_discord_message] exactly when rows were read, at least two of
    them, the row number given (on the command line, else at the prompt)
    is a number from 1 to the number of rows after the header, that row
    has a level id, and its victors cell lists a name.  The call is then
    for the last name listed, with that row's level name, creators and
    difficulty, and the value returned is true exactly for the status
    codes 200 and 204. *)
Theorem manual_send_exactly_when f argv typed response victor text ok :
  SendManual.main f argv typed response = SendManual.Sent victor text ok
  ↔ ∃ data row_num row,
      f = Rows data
      ∧ SendManual.row_number argv typed = inr row_num
      ∧ (1 ≤ row_num ≤ Z.of_nat (length data) - 1)%Z
      ∧ data !! Z.to_nat row_num = Some row
      ∧ has_level_id row = true
      ∧ last (SendManual.victors_list (cell (pad row) "VICTORS"))
        = Some victor
      ∧ text = SendManual.message_text victor (cell (pad row) "LEVEL_NAME")
                 (cell (pad row) "CREATOR") (cell (pad row) "DIFFICULTY")
                 (username_map_of data)
      ∧ ok = match response with
             | SendManual.Status code =>
                 bool_decide (code = 200%Z ∨ code = 204%Z)
             | SendManual.PostRaised => false
             end.
Proof. apply manual_send_exactly_when_aux. Qed.

Lemma manual_send_exactly_when_witness :
  SendManual.main
    (Rows [["ALDR ID"];
           ["L1"; "First"; "zed"; "12"; ""; ""; ""; ""; ""; ""; "ann, bob ,"]])
    ["send_manual.py"; "1"] None (SendManual.Status 204)
  = SendManual.Sent "bob"
      "**bob** has beaten **First** by zed - Difficulty: 12 [<:gm2:1464320747613978748>]"
      true.
Proof.
  apply manual_send_exactly_when.
  exists [["ALDR ID"];
          ["L1"; "First"; "zed"; "12"; ""; ""; ""; ""; ""; ""; "ann, bob ,"]],
    1%Z, ["L1"; "First"; "zed"; "12"; ""; ""; ""; ""; ""; ""; "ann, bob ,"].
  split_and!; try reflexivity; simpl; lia.
Defined.

(** X16: whenever the manual sender sends, the name it sends is one of
    the victors the monitor reads from the victors cell of the very row
    the number selected (so it is not empty and has no whitespace at
    either end); and what the post met changes only the value returned,
    not whether the call is reached, for whom, or with which text. *)
Theorem manual_victor_is_a_listed_victor f argv typed response victor text ok :
  SendManual.main f argv typed response = SendManual.Sent victor text ok →
  (∃ data row_num row,
     f = Rows data
     ∧ SendManual.row_number argv typed = inr row_num
     ∧ (1 ≤ row_num)%Z
     ∧ data !! Z.to_nat row_num = Some row
     ∧ row ∈ drop 1 data
     ∧ last (SendManual.victors_list (cell (pad row) "VICTORS"))
       = Some victor
     ∧ victor ∈ parse_victors (cell (pad row) "VICTORS"))
  ∧ Shape.clean victor
  ∧ ∀ response', ∃ ok',
      SendManual.main f argv typed response'
      = SendManual.Sent victor text ok'.
Proof.
  intros Hmain.
  pose proof (proj1 (manual_send_exactly_when_aux f argv typed response
                       victor text ok) Hmain)
    as (data & row_num & row & -> & Hnum & [Hlow Hhigh] & Hrow & Hid
        & Hlast & -> & ->).
  assert (Hvictor : victor ∈ parse_victors (cell (pad row) "VICTORS")).
  { apply victors_list_parse. by apply last_Some_elem_of. }
  split_and!.
  - exists data, row_num, row. split_and!; [done..| |done|done].
    apply list_elem_of_lookup. exists (Z.to_nat row_num - 1)%nat.
    rewrite lookup_drop. rewrite <- Hrow. f_equal. lia.
  - by apply (parse_victors_clean (cell (pad row) "VICTORS")).
  - intros response'. eexists.
    apply manual_send_exactly_when_aux. exists data, row_num, row.
    by split_and!.
Qed.

Lemma manual_victor_is_a_listed_victor_witness :
  Shape.clean "bob".
Proof.
  exact (proj1 (proj2 (manual_victor_is_a_listed_victor
    (Rows [["ALDR ID"];
           ["L1"; "First"; "zed"; "12"; ""; ""; ""; ""; ""; ""; "ann, bob ,"]])
    ["send_manual.py"] (Some " 1 ") SendManual.PostRaised "bob"
    "**bob** has beaten **First** by zed - Difficulty: 12 [<:gm2:1464320747613978748>]"
    false eq_refl))).
Defined.

(** ** A larger number never gets a lower tier *)

Lemma le_lt_finite d1 d2 m e :
  SFleb d1 d2 = true →
  SFltb d2 (S754_finite false m e) = true →
  SFltb d1 (S754_finite false m e) = true.
Proof.
  unfold SFleb, SFltb, SFcompare.
  change (Pos.compare_cont Eq) with Pos.compare.
  destruct d1 as [[|]|[|]| |[|] m1 e1], d2 as [[|]|[|]| |[|] m2 e2];
    try done.
  destruct (Z.compare_spec e1 e2) as [->| |]; [|intros _|done].
  - destruct (Pos.compare_spec m1 m2) as [->| |]; [done| |done]. intros _.
    destruct (Z.compare_spec e2 e) as [->| |]; [|done|done].
    destruct (Pos.compare_spec m2 m); [done| |done]. intros _.
    by rewrite (proj2 (Pos.compare_lt_iff m1 m)) by lia.
  - destruct (Z.compare_spec e2 e) as [->| |]; [| |done].
    + intros _. by rewrite (proj2 (Z.compare_lt_iff e1 e)) by lia.
    + intros _. by rewrite (proj2 (Z.compare_lt_iff e1 e)) by lia.
Qed.

Lemma tier_index_mono bands d1 d2 :
  Forall (λ band, Shape.finite_positive band.1) bands →
  PyFloat.le d1 d2 = true →
  (Shape.tier_index bands d1 ≤ Shape.tier_index bands d2)%nat.
Proof.
  unfold PyFloat.le. intros Hbands Hle.
  induction Hbands as [|[ub token] bands Hub _ IH]; [done|].
  simpl. unfold PyFloat.lt. destruct (SFltb d2 ub) eqn:H2.
  - destruct ub as [| | |[|] m e]; try done.
    by rewrite (le_lt_finite d1 d2 m e Hle H2).
  - destruct (SFltb d1 ub); lia.
Qed.

Lemma first_below_at_index bands top d :
  Spec.first_below bands top d = Shape.tier_at bands top d.
Proof.
  unfold Shape.tier_at.
  induction bands as [|[ub token] bands IH]; [done|]. simpl.
  by destruct (PyFloat.lt d ub).
Qed.

Lemma numeric_tiers_at_place s d :
  PyFloat.float (PyStr.lower (PyStr.strip s)) = Some d →
  get_difficulty_emoji s
  = Shape.tier_at Spec.monitor_bands Spec.monitor_top d
  ∧ SendManual.get_difficulty_emoji s
    = Shape.tier_at Shape.manual_bands Shape.manual_top d.
Proof.
  intros Hf. unfold get_difficulty_emoji, SendManual.get_difficulty_emoji.
  rewrite (named_tier_not_numeric _ _ Hf),
    (manual_named_tier_not_numeric _ _ Hf), Hf.
  rewrite <- !first_below_at_index. by split.
Qed.

(** X17: in both classifiers the tier of a number is the one at its
    place among the ascending upper bounds, and the place never goes
    down when the number goes up: of two texts read as numbers
    [d1 <= d2], the second gets the same tier or a later one. *)
Theorem larger_number_never_lower_tier s1 s2 d1 d2 :
  PyFloat.float (PyStr.lower (PyStr.strip s1)) = Some d1 →
  PyFloat.float (PyStr.lower (PyStr.strip s2)) = Some d2 →
  PyFloat.le d1 d2 = true →
  (get_difficulty_emoji s1
   = Shape.tier_at Spec.monitor_bands Spec.monitor_top d1
   ∧ get_difficulty_emoji s2
     = Shape.tier_at Spec.monitor_bands Spec.monitor_top d2
   ∧ (Shape.tier_index Spec.monitor_bands d1
      ≤ Shape.tier_index Spec.monitor_bands d2)%nat)
  ∧ (SendManual.get_difficulty_emoji s1
     = Shape.tier_at Shape.manual_bands Shape.manual_top d1
     ∧ SendManual.get_difficulty_emoji s2
       = Shape.tier_at Shape.manual_bands Shape.manual_top d2
     ∧ (Shape.tier_index Shape.manual_bands d1
        ≤ Shape.tier_index Shape.manual_bands d2)%nat).
Proof.
  intros Hf1 Hf2 Hle.
  destruct (numeric_tiers_at_place s1 d1 Hf1) as [Hm1 Hs1].
  destruct (numeric_tiers_at_place s2 d2 Hf2) as [Hm2 Hs2].
  split_and!; try done.
  - apply tier_index_mono; [|done]. by repeat constructor.
  - apply tier_index_mono; [|done]. by repeat constructor.
Qed.

Lemma larger_number_never_lower_tier_witness :
  (Shape.tier_index Spec.monitor_bands Monitor.f2_5
   ≤ Shape.tier_index Spec.monitor_bands Monitor.f9_5)%nat.
Proof.
  exact (proj2 (proj2 (proj1 (larger_number_never_lower_tier "2.5" "9.5"
                                Monitor.f2_5 Monitor.f9_5
                                eq_refl eq_refl eq_refl)))).
Defined.

(** ** Counting the calls, and the state after a repeated snapshot *)

Lemma sorted_length s : length (sorted s) = size s.
Proof.
  unfold sorted. by rewrite (merge_sort_Permutation String.le).
Qed.

Lemma row_sent_length st username_to_id_map row :
  first_check_done st = true → has_level_id row = true →
  length (row_sent st username_to_id_map row)
  = size (parse_victors (cell (pad row) "VICTORS")
          ∖ default ∅ (previous_victors st !! level_id_of row)).
Proof.
  intros Hflag Hid. rewrite row_sent_sorted by done.
  by rewrite length_fmap, sorted_length.
Qed.

(** X18: with the baseline flag set, the number of calls a cycle makes is
    the sum, over the rows with a level id, of the number of victors the
    row lists outside the set recorded for its level id: one call for
    each new victor of each row, no more. *)
Theorem one_call_per_new_victor st data :
  first_check_done st = true →
  length (check_cycle (Rows data) st).2
  = sum_list
      ((λ row, size (parse_victors (cell (pad row) "VICTORS")
                     ∖ default ∅ (previous_victors st !! level_id_of row)))
         <$> filter (λ row, has_level_id row) (drop 1 data)).
Proof.
  intros Hflag. unfold check_cycle, fetch_sheet_data. rewrite cycle_sent.
  induction (drop 1 data) as [|row rows IH]; [done|].
  rewrite fmap_cons. simpl. rewrite length_app, IH, filter_cons.
  destruct (has_level_id row) eqn:Hid.
  - simpl. by rewrite row_sent_length.
  - unfold row_sent. by rewrite Hid.
Qed.

Lemma one_call_per_new_victor_witness :
  length (check_cycle
            (Rows [["ALDR ID"];
                   ["L1"; "First"; "zed"; "3"; ""; ""; ""; ""; ""; "";
                    "ann, bob, cy"];
                   [""; "no id"; ""; ""; ""; ""; ""; ""; ""; ""; "dee"]])
            (State {["L1" := {["ann"]}]} true)).2 = 2%nat.
Proof.
  exact (one_call_per_new_victor (State {["L1" := {["ann"]}]} true)
           [["ALDR ID"];
            ["L1"; "First"; "zed"; "3"; ""; ""; ""; ""; ""; "";
             "ann, bob, cy"];
            [""; "no id"; ""; ""; ""; ""; ""; ""; ""; ""; "dee"]]
           eq_refl).
Defined.

Lemma state_eq (s1 s2 : state) :
  previous_victors s1 = previous_victors s2 →
  first_check_done s1 = first_check_done s2 → s1 = s2.
Proof. destruct s1, s2. simpl. by intros -> ->. Qed.

(** X19: whatever the fetch met, running the cycle a second time on the
    same outcome leaves the state as the first run left it, also when a
    level id stands in several rows: the recorded sets and the flag
    settle after one cycle, even where the calls do not. *)
Theorem state_settles_after_one_cycle f st :
  (check_cycle f (check_cycle f st).1).1 = (check_cycle f st).1.
Proof.
  destruct f as [|data]; [done|]. unfold check_cycle, fetch_sheet_data.
  apply state_eq.
  - apply map_eq. intros k. rewrite !cycle_previous.
    by destruct (last _).
  - destruct (decide (length data < 2)%nat).
    + by rewrite !short_data_stops.
    + by rewrite !cycle_flag by lia.
Qed.
